(** * Cisco MAC-binding table to Nile CSV: the conversion route

    A shallow embedding of the processing route of the migration tool
    ([POST], [parseFileContent], [formatMacAddress], [generateCsv]), of the
    page that calls it ([processFile], [handleVlanMappingChange],
    [handleProcessFile], the preview), and the properties proved about them.

    Strings are sequences of 8-bit code units, which is what [atob] hands to
    the parser.  The mapping table of a request and the text the page reads
    can hold wider code units, on which [btoa] throws; such strings are not
    in the model, and what is proved of a reply that carries a CSV, or of
    the results the page ends with, is proved from the reply or the results
    being there.

    Numbers are represented by the integer their digits denote (or [NaN]);
    the engine's doubles agree with it on every integer below 2^53 in
    magnitude, and [-0] is identified with [0] (both print as 0).  Beyond
    that range the engine rounds, prints an exponent from 1e21 on and gives
    Infinity from 309 digits on.  So whatever is proved of the value or of
    the decimal text of a VLAN id is proved for runs of at most fifteen
    digits, which the hypotheses say; the ids of a switch have at most four
    digits. *)

From Stdlib Require Import ZArith NArith Ascii String DecimalString DecimalZ List.
From stdpp Require Import base option list gmap strings sorting.

Local Open Scope Z_scope.

(** Appending strings computes under [simpl] here, as appending lists does. *)
#[local] Arguments String.append !s1 s2 : simpl nomatch.

(* ===================================================================== *)
(** * Part I. The program                                                 *)
(* ===================================================================== *)

(** ** Character classes *)

Module Chr.

Definition code (c : ascii) : N := N_of_ascii c.

Definition between (lo hi : N) (c : ascii) : bool :=
  ((lo <=? code c) && (code c <=? hi))%N.

(** The class [\s] of regular expressions, which is also what [trim]
    strips: TAB, LF, VT, FF, CR, SPACE and NBSP. *)
Definition isWhiteSpace (c : ascii) : bool :=
  between 9 13 c || (code c =? 32)%N || (code c =? 160)%N.

(** The characters the regular expression [.] refuses. *)
Definition isLineTerminator (c : ascii) : bool :=
  (code c =? 10)%N || (code c =? 13)%N.

Definition isDot (c : ascii) : bool := negb (isLineTerminator c).

(** The class [\d]. *)
Definition isDigit (c : ascii) : bool := between 48 57 c.

(** The class of the two quote characters, single and double. *)
Definition isQuote (c : ascii) : bool :=
  (code c =? 39)%N || (code c =? 34)%N.

Definition isEquals (c : ascii) : bool := (code c =? 61)%N.

(** The class [.:-]. *)
Definition isSeparator (c : ascii) : bool :=
  (code c =? 46)%N || (code c =? 58)%N || (code c =? 45)%N.

(** Lower-casing of one code unit: A-Z and the accented capitals
    of the upper half (all but the multiplication sign). *)
Definition toLower (c : ascii) : ascii :=
  if between 65 90 c || between 192 214 c || between 216 222 c
  then ascii_of_N (code c + 32)
  else c.

(** The hexadecimal digits, as they look after lower-casing. *)
Definition isHex (c : ascii) : bool := isDigit c || between 97 102 c.

End Chr.

(** ** String builtins *)

Module Str.
Import Chr.

Fixpoint all (p : ascii -> bool) (s : string) : bool :=
  match s with
  | EmptyString => true
  | String c r => p c && all p r
  end.

Fixpoint any (p : ascii -> bool) (s : string) : bool :=
  match s with
  | EmptyString => false
  | String c r => p c || any p r
  end.

Fixpoint keep (p : ascii -> bool) (s : string) : string :=
  match s with
  | EmptyString => EmptyString
  | String c r => if p c then String c (keep p r) else keep p r
  end.

Fixpoint takeWhile (p : ascii -> bool) (s : string) : string :=
  match s with
  | EmptyString => EmptyString
  | String c r => if p c then String c (takeWhile p r) else EmptyString
  end.

Definition isEmpty (s : string) : bool :=
  match s with EmptyString => true | _ => false end.

Definition isChar (a : ascii) (c : ascii) : bool := Ascii.eqb a c.

(** [s.toLowerCase()] *)
Fixpoint toLowerCase (s : string) : string :=
  match s with
  | EmptyString => EmptyString
  | String c r => String (toLower c) (toLowerCase r)
  end.

Fixpoint trimStart (s : string) : string :=
  match s with
  | EmptyString => EmptyString
  | String c r => if isWhiteSpace c then trimStart r else s
  end.

Fixpoint trimEnd (s : string) : string :=
  match s with
  | EmptyString => EmptyString
  | String c r =>
      let r' := trimEnd r in
      if isWhiteSpace c && isEmpty r' then EmptyString else String c r'
  end.

(** [s.trim()] *)
Definition trim (s : string) : string := trimEnd (trimStart s).

(** [s.split(sep)] for a separator of one character: the pieces between
    the occurrences of [sep], so never an empty list. *)
Fixpoint split (sep : ascii) (s : string) : list string :=
  match s with
  | EmptyString => [EmptyString]
  | String c r =>
      if isChar sep c then EmptyString :: split sep r
      else match split sep r with
           | h :: t => String c h :: t
           | [] => [String c EmptyString]
           end
  end.

(** [s.split(/\s+/)]: a run of white space is one separator; white space
    at either end leaves an empty piece there.  [inRun] says that the
    character before was white space. *)
Fixpoint splitRuns (inRun : bool) (s : string) : list string :=
  match s with
  | EmptyString => [EmptyString]
  | String c r =>
      if isWhiteSpace c then
        if inRun then splitRuns true r else EmptyString :: splitRuns true r
      else match splitRuns false r with
           | h :: t => String c h :: t
           | [] => [String c EmptyString]
           end
  end.

Definition splitWhiteSpace (s : string) : list string := splitRuns false s.

(** [s.replace(/[.:-]/g, '')] *)
Definition removeSeparators (s : string) : string :=
  keep (fun c => negb (isSeparator c)) s.

(** [s.match(/.{1,2}/g)]: the successive matches, scanning from the left;
    a line terminator matches nothing and is stepped over.  The empty list
    stands for [null]. *)
Fixpoint matchPairs (s : string) : list string :=
  match s with
  | EmptyString => []
  | String c r =>
      if isDot c then
        match r with
        | EmptyString => [String c EmptyString]
        | String d r' =>
            if isDot d then String c (String d EmptyString) :: matchPairs r'
            else String c EmptyString :: matchPairs r
        end
      else matchPairs r
  end.

(** [parts.join(sep)] *)
Definition join (sep : string) (parts : list string) : string :=
  String.concat sep parts.

End Str.

(** ** Numbers *)

(** A number of the engine that is an integer, or [NaN].  The integer is
    exact, where the engine has a double: the two agree below 2^53. *)
Inductive number := NaN | Int (z : Z).

Definition isNaN (n : number) : bool :=
  match n with NaN => true | Int _ => false end.

(** [n.toString()], also the property key a number is turned into: the
    decimal digits, which is what the engine prints for an integer below
    2^53. *)
Definition Number_toString (n : number) : string :=
  match n with
  | NaN => "NaN"
  | Int z => NilZero.string_of_int (Z.to_int z)
  end.

Definition digitValue (c : ascii) : Z := Z.of_N (Chr.code c - 48).

Fixpoint digitsValue (acc : Z) (s : string) : Z :=
  match s with
  | EmptyString => acc
  | String c r => digitsValue (10 * acc + digitValue c) r
  end.

(** [parseInt(s, 10)]: leading white space, an optional sign, then the
    longest run of decimal digits; whatever follows is ignored. *)
Definition parseInt (s : string) : number :=
  let s1 := Str.trimStart s in
  let '(negative, s2) :=
    match s1 with
    | String c r =>
        if Str.isChar "-" c then (true, r)
        else if Str.isChar "+" c then (false, r)
        else (false, s1)
    | EmptyString => (false, s1)
    end in
  let digits := Str.takeWhile Chr.isDigit s2 in
  if Str.isEmpty digits then NaN
  else Int (if negative then - digitsValue 0 digits else digitsValue 0 digits).

(** ** Regular expressions: anchored sequences of quantified classes *)

Module Re.

Inductive quantifier := Once | Optional | Star | Plus | LazyStar.

Record atom := Atom {
  cls : ascii -> bool;
  quant : quantifier;
  captured : bool
}.

Definition orElse {A} (x y : option A) : option A :=
  match x with Some _ => x | None => y end.

Definition snoc (s : string) (c : ascii) : string := s +:+ String c EmptyString.

Section Quantified.
Variable p : ascii -> bool.
(** What follows the atom: given the text the atom took and the rest. *)
Variable k : string -> string -> option (list string).

Definition once (taken s : string) : option (list string) :=
  match s with
  | String c r => if p c then k (snoc taken c) r else None
  | EmptyString => None
  end.

(** As many as possible first, giving one back at a time. *)
Fixpoint greedy (taken s : string) : option (list string) :=
  match s with
  | String c r =>
      if p c then orElse (greedy (snoc taken c) r) (k taken s) else k taken s
  | EmptyString => k taken s
  end.

(** As few as possible first, taking one more at a time. *)
Fixpoint lazy (taken s : string) : option (list string) :=
  orElse (k taken s)
    match s with
    | String c r => if p c then lazy (snoc taken c) r else None
    | EmptyString => None
    end.

Definition optional (s : string) : option (list string) :=
  orElse (once EmptyString s) (k EmptyString s).

Definition plus (s : string) : option (list string) :=
  match s with
  | String c r => if p c then greedy (snoc EmptyString c) r else None
  | EmptyString => None
  end.
End Quantified.

(** [exec re s]: the capture groups of the first way, in backtracking
    order, in which [^re$] matches the whole of [s]. *)
Fixpoint exec (re : list atom) (s : string) : option (list string) :=
  match re with
  | [] => if Str.isEmpty s then Some [] else None
  | a :: re' =>
      let k taken rest :=
        (fun groups => if captured a then taken :: groups else groups)
          <$> exec re' rest in
      match quant a with
      | Once => once (cls a) k EmptyString s
      | Optional => optional (cls a) k s
      | Star => greedy (cls a) k EmptyString s
      | Plus => plus (cls a) k s
      | LazyStar => lazy (cls a) k EmptyString s
      end
  end.

End Re.

(** ** Base64, as [atob] and [btoa] *)

Module Base64.
Import Chr.

Definition sextet (c : ascii) : option N :=
  if between 65 90 c then Some (code c - 65)%N
  else if between 97 122 c then Some (code c - 71)%N
  else if between 48 57 c then Some (code c + 4)%N
  else if (code c =? 43)%N then Some 62%N
  else if (code c =? 47)%N then Some 63%N
  else None.

Definition letter (n : N) : ascii :=
  ascii_of_N (if n <? 26 then n + 65
              else if n <? 52 then n + 71
              else if n <? 62 then n - 4
              else if n =? 62 then 43 else 47)%N.

Fixpoint encode (l : list ascii) : string :=
  match l with
  | [] => EmptyString
  | [a] =>
      let w := (code a * 16)%N in
      String (letter (w / 64)) (String (letter (w mod 64)) "==")
  | [a; b] =>
      let w := ((code a * 256 + code b) * 4)%N in
      String (letter (w / 4096)) (String (letter (w / 64 mod 64))
        (String (letter (w mod 64)) "="))
  | a :: b :: c :: r =>
      let w := (code a * 65536 + code b * 256 + code c)%N in
      String (letter (w / 262144)) (String (letter (w / 4096 mod 64))
        (String (letter (w / 64 mod 64)) (String (letter (w mod 64)) (encode r))))
  end.

Fixpoint decode (l : list N) : list ascii :=
  match l with
  | a :: b :: c :: d :: r =>
      let w := (((a * 64 + b) * 64 + c) * 64 + d)%N in
      ascii_of_N (w / 65536) :: ascii_of_N (w / 256 mod 256)
        :: ascii_of_N (w mod 256) :: decode r
  | [a; b; c] =>
      let w := (((a * 64 + b) * 64 + c) / 4)%N in
      [ascii_of_N (w / 256); ascii_of_N (w mod 256)]
  | [a; b] => [ascii_of_N ((a * 64 + b) / 16)]
  | _ => []
  end.

(** TAB, LF, FF, CR and SPACE are dropped before decoding. *)
Definition isAsciiWhiteSpace (c : ascii) : bool :=
  (code c =? 9)%N || (code c =? 10)%N || (code c =? 12)%N
  || (code c =? 13)%N || (code c =? 32)%N.

Definition stripPadding (l : list ascii) : list ascii :=
  if (length l mod 4 =? 0)%nat then
    match rev l with
    | c1 :: c2 :: r =>
        if Str.isChar "=" c1 then
          if Str.isChar "=" c2 then rev r else rev (c2 :: r)
        else l
    | _ => l
    end
  else l.

(** [btoa(s)]: total on strings of 8-bit code units.  (On a wider code unit
    the engine's [btoa] throws; the strings of the model hold none.) *)
Definition btoa (s : string) : string := encode (list_ascii_of_string s).

(** [atob(s)]; [None] stands for the exception it throws. *)
Definition atob (s : string) : option string :=
  let l := stripPadding
             (filter (fun c => negb (isAsciiWhiteSpace c)) (list_ascii_of_string s)) in
  if (length l mod 4 =? 1)%nat then None
  else (fun ns => string_of_list_ascii (decode ns)) <$> mapM sextet l.

End Base64.

(** ** The route: parsing *)

Record client := Client {
  vlan : number;
  mac : string;
  port : string
}.

(** The three variables the line callback of [parseFileContent] updates. *)
Record scan := Scan {
  seenClients : list client;
  seenVlans : gset Z;
  seenMappings : gmap string string
}.

(** What [parseFileContent] returns. *)
Record parsed := Parsed {
  clients : list client;
  uniqueVlans : list Z;
  detectedMappings : gmap string string
}.

(** The pattern of a mapping line: digits (captured), white space, an
    equals sign, white space, an optional quote, any text taken lazily
    (captured), an optional quote, the end of the line. *)
Definition mappingPattern : list Re.atom :=
  [ Re.Atom Chr.isDigit Re.Plus true;
    Re.Atom Chr.isWhiteSpace Re.Star false;
    Re.Atom Chr.isEquals Re.Once false;
    Re.Atom Chr.isWhiteSpace Re.Star false;
    Re.Atom Chr.isQuote Re.Optional false;
    Re.Atom Chr.isDot Re.LazyStar true;
    Re.Atom Chr.isQuote Re.Optional false ].

(** [trimmedLine.match(...)]: the two groups, or [None] for [null]. *)
Definition mappingMatch (trimmedLine : string) : option (string * string) :=
  match Re.exec mappingPattern trimmedLine with
  | Some [g1; g2] => Some (g1, g2)
  | _ => None
  end.

(** The callback of [lines.forEach]. *)
Definition scanLine (st : scan) (line : string) : scan :=
  let trimmedLine := Str.trim line in
  if Str.isEmpty trimmedLine then st
  else
    match mappingMatch trimmedLine with
    | Some (g1, segmentName) =>
        let vlanId := parseInt g1 in
        Scan (seenClients st) (seenVlans st)
             (<[Number_toString vlanId := segmentName]> (seenMappings st))
    | None =>
        let parts := Str.splitWhiteSpace trimmedLine in
        if (length parts <? 4)%nat then st
        else
          let vlan := parseInt (nth 0 parts EmptyString) in
          let mac := nth 1 parts EmptyString in
          let port := nth 3 parts EmptyString in
          (* if (!isNaN(vlan) && mac && port) *)
          match vlan with
          | Int v =>
              if negb (Str.isEmpty mac) && negb (Str.isEmpty port) then
                Scan (seenClients st ++ [Client vlan mac port])
                     ({[ v ]} ∪ seenVlans st) (seenMappings st)
              else st
          | NaN => st
          end
    end.

Definition scanLines (lines : list string) : scan :=
  fold_left scanLine lines (Scan [] ∅ ∅).

Definition parseFileContent (content : string) : parsed :=
  let lines := Str.split "010" (Str.trim content) in
  let st := scanLines lines in
  Parsed (seenClients st) (merge_sort Z.le (elements (seenVlans st)))
         (seenMappings st).

(** ** The route: MAC addresses *)

Definition formatMacAddress (mac : string) : string :=
  let mac := Str.removeSeparators (Str.toLowerCase mac) in
  if (String.length mac =? 12)%nat then
    match Str.matchPairs mac with
    | [] => mac
    | pairs => Str.join ":" pairs
    end
  else mac.

(** ** The route: rendering *)

Definition headers : list string :=
  [ "MAC Address (Required)";
    "Segment (Required for allow state)";
    "Lock to Port (Optional)";
    "Site (Optional)";
    "Building (Optional)";
    "Floor (Optional)";
    "Allow or Deny (Required)";
    "Description (Optional)";
    "Static IP (Optional)";
    "IP Address (Optional)";
    "Passive IP (Optional)" ].

(** [vlanMappings[vlan] || ''] *)
Definition segmentOf (vlanMappings : gmap string string) (vlan : number) : string :=
  default EmptyString (vlanMappings !! Number_toString vlan).

(** The array a client is turned into, before it is joined. *)
Definition rowFields (vlanMappings : gmap string string) (c : client) : list string :=
  [ formatMacAddress (mac c);
    segmentOf vlanMappings (vlan c);
    ""; ""; ""; "";
    "Allow";
    "";
    "No";
    "";
    "No" ].

Definition rowOf (vlanMappings : gmap string string) (c : client) : string :=
  Str.join "," (rowFields vlanMappings c).

Definition generateCsv (clients : list client) (vlanMappings : gmap string string)
  : string :=
  let rows := Str.join "," headers :: map (rowOf vlanMappings) clients in
  Str.join (String "010" EmptyString) rows.

(** ** The route: the request handler *)

(** The two fields read off the request body; [None] for an absent one.
    (A request whose body cannot be read as JSON is answered with status 500
    before any of this; the model starts from the body as read.) *)
Record body := Body {
  fileContent : option string;
  vlanMappings : option (gmap string string)
}.

Inductive response :=
| ErrorResponse (error : string) (status : Z)
| CsvResponse (csvContent : string) (detected : gmap string string).

(** The choice between the mappings of the request and those of the file. *)
Definition finalMappings (vlanMappings detectedMappings : gmap string string)
  : gmap string string :=
  if (0 <? size vlanMappings)%nat then vlanMappings else detectedMappings.

(** The branches follow the handler: the test [!fileContent], the failure of
    [atob], the test [clients.length === 0], and [Object.keys(vlanMappings)],
    which throws inside the inner [try] when the mappings are absent.  The
    mapping table is one of 8-bit strings: a segment name with a wider code
    unit, on which [btoa(csvContent)] throws inside the inner [try] as well,
    is not in the model. *)
Definition POST (b : body) : response :=
  match fileContent b with
  | None => ErrorResponse "No file content provided" 400
  | Some content64 =>
      if Str.isEmpty content64 then ErrorResponse "No file content provided" 400
      else
        match Base64.atob content64 with
        | None => ErrorResponse "Invalid file content encoding" 400
        | Some decodedContent =>
            let r := parseFileContent decodedContent in
            if (length (clients r) =? 0)%nat then
              ErrorResponse "No valid MAC address entries found in the file" 400
            else
              match vlanMappings b with
              | None => ErrorResponse "Failed to parse file content" 400
              | Some supplied =>
                  let csvContent :=
                    generateCsv (clients r)
                                (finalMappings supplied (detectedMappings r)) in
                  CsvResponse (Base64.btoa csvContent) (detectedMappings r)
              end
        end
  end.

(** ** The specification's reading of a line *)

(** The specification sorts each line into one of four kinds. *)
Inductive lineClass :=
| Blank
| Declaration (key segmentName : string)
| Binding (c : client)
| Noise.

(** A line is blank when nothing is left after trimming; a declaration when
    the mapping pattern matches; a binding when it has at least four tokens
    and the first one parses as an integer; noise otherwise. *)
Definition classify (line : string) : lineClass :=
  let t := Str.trim line in
  if Str.isEmpty t then Blank
  else
    match mappingMatch t with
    | Some (digits, name) => Declaration (Number_toString (parseInt digits)) name
    | None =>
        match Str.splitWhiteSpace t with
        | t0 :: t1 :: _ :: t3 :: _ =>
            match parseInt t0 with
            | Int v => Binding (Client (Int v) t1 t3)
            | NaN => Noise
            end
        | _ => Noise
        end
    end.

(** What a line of each kind does to the scan. *)
Definition record (st : scan) (k : lineClass) : scan :=
  match k with
  | Blank | Noise => st
  | Declaration key name =>
      Scan (seenClients st) (seenVlans st) (<[key := name]> (seenMappings st))
  | Binding c =>
      Scan (seenClients st ++ [c])
           (match vlan c with Int v => {[ v ]} ∪ seenVlans st | NaN => seenVlans st end)
           (seenMappings st)
  end.

(** The callback pushed the record [c] for this line. *)
Definition emits (st : scan) (line : string) (c : client) : Prop :=
  seenClients (scanLine st line) = seenClients st ++ [c].

Definition bindingOf (line : string) : option client :=
  match classify line with Binding c => Some c | _ => None end.

Definition declarationOf (line : string) : option (string * string) :=
  match classify line with Declaration key name => Some (key, name) | _ => None end.

(** The VLAN id a line declares a segment for, if it is a declaration. *)
Definition declaredVlan (line : string) : option number :=
  match mappingMatch (Str.trim line) with
  | Some (digits, _) => Some (parseInt digits)
  | None => None
  end.

(** The seven base columns of the specification. *)
Definition baseHeaders : list string :=
  [ "MAC Address (Required)";
    "Segment (Required for allow state)";
    "Lock to Port (Optional)";
    "Site (Optional)";
    "Building (Optional)";
    "Floor (Optional)";
    "Allow or Deny (Required)" ].

(** The four columns it appends for the IP configuration. *)
Definition ipHeaders : list string :=
  [ "Description (Optional)";
    "Static IP (Optional)";
    "IP Address (Optional)";
    "Passive IP (Optional)" ].

(** The lines of a CSV text and the comma-separated fields of a line. *)
Definition csvLines (csv : string) : list string := Str.split "010" csv.
Definition csvFields (line : string) : list string := Str.split "," line.

Definition hasComma (s : string) : bool := Str.any (Str.isChar ",") s.
Definition hasNewline (s : string) : bool := Str.any (Str.isChar "010") s.

(** The rows in which neither variable field holds a comma, and those in
    which neither holds a newline. *)
Definition commaFree (vlanMappings : gmap string string) (c : client) : bool :=
  negb (hasComma (formatMacAddress (mac c)))
  && negb (hasComma (segmentOf vlanMappings (vlan c))).

Definition newlineFree (vlanMappings : gmap string string) (c : client) : bool :=
  negb (hasNewline (formatMacAddress (mac c)))
  && negb (hasNewline (segmentOf vlanMappings (vlan c))).

(** The groups of two characters a string falls into, from the left. *)
Fixpoint octets (s : string) : list string :=
  match s with
  | EmptyString => []
  | String c EmptyString => [String c EmptyString]
  | String c (String d r) => String c (String d EmptyString) :: octets r
  end.

(** A mapping line written out: digits, white space, the equals sign, white
    space, and the segment name between two copies of [quote]. *)
Definition declarationLine (digits ws1 ws2 quote name : string) : string :=
  digits +:+ ws1 +:+ "=" +:+ ws2 +:+ quote +:+ name +:+ quote.

Definition firstIs (p : ascii -> bool) (s : string) : bool :=
  match s with String c _ => p c | EmptyString => false end.

Fixpoint lastIs (p : ascii -> bool) (s : string) : bool :=
  match s with
  | EmptyString => false
  | String c EmptyString => p c
  | String _ r => lastIs p r
  end.

(** The side conditions under which [declarationLine] reads back as written:
    [quote] is empty or one quote character; the name holds no line
    terminator; a bare name neither starts with white space or a quote nor
    ends with a quote. *)
Definition declarationShape (digits ws1 ws2 quote name : string) : bool :=
  negb (Str.isEmpty digits) && Str.all Chr.isDigit digits
  && Str.all Chr.isWhiteSpace ws1 && Str.all Chr.isWhiteSpace ws2
  && Str.all Chr.isQuote quote && (String.length quote <=? 1)%nat
  && Str.all Chr.isDot name
  && (negb (Str.isEmpty quote)
      || negb (firstIs Chr.isWhiteSpace name) && negb (firstIs Chr.isQuote name)
         && negb (lastIs Chr.isQuote name)).

(** What a matched line looks like: the digits, white space, the equals
    sign, white space, at most one quote, the name, at most one quote. *)
Definition matchedShape (t digits name : string) : Prop :=
  exists ws1 ws2 q1 q2 : string,
    t = digits +:+ ws1 +:+ "=" +:+ ws2 +:+ q1 +:+ name +:+ q2
    /\ digits <> EmptyString /\ Str.all Chr.isDigit digits = true
    /\ Str.all Chr.isWhiteSpace ws1 = true /\ Str.all Chr.isWhiteSpace ws2 = true
    /\ Str.all Chr.isQuote q1 = true /\ (String.length q1 <= 1)%nat
    /\ Str.all Chr.isDot name = true
    /\ Str.all Chr.isQuote q2 = true /\ (String.length q2 <= 1)%nat.

(** ** The specification's reading of a token and of a line's format *)

(** The two signs [parseInt] accepts in front of the digits. *)
Definition isSign (c : ascii) : bool := Str.isChar "+" c || Str.isChar "-" c.

(** A token without its sign, and the digits it then starts with. *)
Definition unsigned (s : string) : string :=
  match s with
  | String c r => if isSign c then r else s
  | EmptyString => s
  end.

Definition digitRun (s : string) : string := Str.takeWhile Chr.isDigit (unsigned s).

(** The token starts as a number does: an optional sign, then a digit. *)
Definition startsNumber (s : string) : bool := negb (Str.isEmpty (digitRun s)).

Definition isNegative (s : string) : bool := firstIs (Str.isChar "-") s.

(** The integer the sign and the leading digits of a token denote. *)
Definition runValue (s : string) : Z :=
  if isNegative s then - digitsValue 0 (digitRun s) else digitsValue 0 (digitRun s).

(** A base-10 integer from end to end, as the specification's line format
    has it: an optional sign and digits, at least one, and nothing else. *)
Definition isInteger (s : string) : bool :=
  startsNumber s && Str.all Chr.isDigit (unsigned s).

Fixpoint dropWhile (p : ascii -> bool) (s : string) : string :=
  match s with
  | String c r => if p c then dropWhile p r else s
  | EmptyString => EmptyString
  end.

(** The declaration format as the specification words it: digits, optional
    white space, the equals sign, and then the quotes and the name, for
    which any text will do. *)
Definition describedDeclaration (t : string) : bool :=
  firstIs Chr.isDigit t
  && firstIs (Str.isChar "=") (dropWhile Chr.isWhiteSpace (dropWhile Chr.isDigit t)).

(** The binding format as the specification words it: an integer VLAN id,
    the MAC address, the type and the port, separated by white space. *)
Definition describedBinding (t : string) : bool :=
  (4 <=? length (Str.splitWhiteSpace t))%nat
  && isInteger (nth 0 (Str.splitWhiteSpace t) EmptyString).

(** A malformed line: not blank, and of neither format. *)
Definition malformed (line : string) : bool :=
  negb (Str.isEmpty (Str.trim line))
  && negb (describedDeclaration (Str.trim line))
  && negb (describedBinding (Str.trim line)).

(** The lines the mapping pattern matches. *)
Definition isDeclaration (line : string) : bool :=
  match mappingMatch (Str.trim line) with Some _ => true | None => false end.

(** The lines the scan passes over: the blank ones, and those the mapping
    pattern does not match that have fewer than four tokens or whose first
    token does not start as a number does. *)
Definition skipped (line : string) : bool :=
  Str.isEmpty (Str.trim line)
  || negb (isDeclaration line)
     && ((length (Str.splitWhiteSpace (Str.trim line)) <? 4)%nat
         || negb (startsNumber (nth 0 (Str.splitWhiteSpace (Str.trim line)) EmptyString))).

(** ** The page *)

(** The two variables the line callback of [processFile] updates. *)
Record pageScan := PageScan {
  pageVlans : gset Z;
  pageMappings : gmap string string
}.

(** The callback of [lines.forEach] in [processFile]: mappings as in the
    route; of a binding line only the VLAN id is kept. *)
Definition pageScanLine (st : pageScan) (line : string) : pageScan :=
  let trimmedLine := Str.trim line in
  if Str.isEmpty trimmedLine then st
  else
    match mappingMatch trimmedLine with
    | Some (g1, segmentName) =>
        let vlanId := parseInt g1 in
        PageScan (pageVlans st)
                 (<[Number_toString vlanId := segmentName]> (pageMappings st))
    | None =>
        let parts := Str.splitWhiteSpace trimmedLine in
        if (4 <=? length parts)%nat then
          match parseInt (nth 0 parts EmptyString) with
          | Int v => PageScan ({[ v ]} ∪ pageVlans st) (pageMappings st)
          | NaN => st
          end
        else st
    end.

(** The callback of [sortedVlans.forEach]: a VLAN is given its detected
    segment name when that name is not empty. *)
Definition prefill (mappings initialMappings : gmap string string) (vlan : Z)
  : gmap string string :=
  match mappings !! Number_toString (Int vlan) with
  | Some name =>
      if Str.isEmpty name then initialMappings
      else <[Number_toString (Int vlan) := name]> initialMappings
  | None => initialMappings
  end.

Module Page.

(** What [processFile] sets: the VLAN list, the detected mappings and the
    mappings the form starts from. *)
Record state := State {
  vlans : list Z;
  detectedMappings : gmap string string;
  vlanMappings : gmap string string
}.

End Page.

(** The handler of [reader.onload] in [processFile]; the lines are those of
    the content as read, which is not trimmed here. *)
Definition processFile (content : string) : Page.state :=
  let lines := Str.split "010" content in
  let st := fold_left pageScanLine lines (PageScan ∅ ∅) in
  let sortedVlans := merge_sort Z.le (elements (pageVlans st)) in
  Page.State sortedVlans (pageMappings st)
             (fold_left (prefill (pageMappings st)) sortedVlans ∅).

(** The update of the form: the previous mappings with one entry set. *)
Definition handleVlanMappingChange (prev : gmap string string) (vlan : Z)
    (segmentName : string) : gmap string string :=
  <[Number_toString (Int vlan) := segmentName]> prev.

(** How [handleProcessFile] ends: with the CSV and the detected mappings of
    the response, or with an alert.  [AlertDecoding] is the alert that
    carries the engine's message when [atob] throws. *)
Inductive outcome :=
| Results (csvData : string) (detected : gmap string string)
| Alert (message : string)
| AlertDecoding.

(** [handleProcessFile], with the request answered by the route [POST] (the
    endpoint of local development): a response that is not of status 2xx is
    thrown as an error naming the status.  The file text is one of 8-bit
    code units: a text with a wider one, on which [btoa(fileContent)] throws
    and the exception is alerted, is not in the model. *)
Definition handleProcessFile (fileContent : option string)
    (vlanMappings : gmap string string) : outcome :=
  match fileContent with
  | None => Alert "File content is missing"
  | Some text =>
      if Str.isEmpty text then Alert "File content is missing"
      else
        let base64Content := Base64.btoa text in
        match POST (Body (Some base64Content) (Some vlanMappings)) with
        | ErrorResponse _ status =>
            Alert ("API error: " +:+ Number_toString (Int status))
        | CsvResponse csvContent detected =>
            match Base64.atob csvContent with
            | Some csv => Results csv detected
            | None => AlertDecoding
            end
        end
  end.

(** The preview of the results: the first ten lines of the CSV, and a line
    of three dots after them when there are more. *)
Definition preview (csvData : string) : string :=
  Str.join (String "010" EmptyString) (take 10 (Str.split "010" csvData))
  +:+ (if (10 <? length (Str.split "010" csvData))%nat
       then String "010" "..." else EmptyString).

(** The part of the route's scan that the page keeps. *)
Definition shown (st : scan) : pageScan := PageScan (seenVlans st) (seenMappings st).

(* ===================================================================== *)
(** * Part II. Properties                                                 *)
(* ===================================================================== *)

(** ** Characters *)

Ltac each_char c :=
  destruct c as [[] [] [] [] [] [] [] []]; vm_compute; try reflexivity; try congruence.

Lemma whiteSpace_not_digit c : Chr.isWhiteSpace c = true -> Chr.isDigit c = false.
Proof. each_char c. Qed.

Lemma quote_not_whiteSpace c : Chr.isQuote c = true -> Chr.isWhiteSpace c = false.
Proof. each_char c. Qed.

Lemma newline_whiteSpace c : Str.isChar "010" c = true -> Chr.isWhiteSpace c = true.
Proof. each_char c. Qed.

Lemma digit_not_whiteSpace c : Chr.isDigit c = true -> Chr.isWhiteSpace c = false.
Proof. each_char c. Qed.

Lemma toLower_newline c : Str.isChar "010" (Chr.toLower c) = Str.isChar "010" c.
Proof. each_char c. Qed.

Lemma hex_isDot c : Chr.isHex c = true -> Chr.isDot c = true.
Proof. each_char c. Qed.

Lemma digitValue_range c : Chr.isDigit c = true -> 0 <= digitValue c <= 9.
Proof.
  destruct c as [[] [] [] [] [] [] [] []]; vm_compute;
    try discriminate; intros _; split; discriminate.
Qed.

Lemma isChar_eq a c : Str.isChar a c = true <-> c = a.
Proof.
  unfold Str.isChar. rewrite Ascii.eqb_eq. split; congruence.
Qed.

(** ** Strings: appending, trimming, tokens *)

Lemma append_empty_r s : s +:+ EmptyString = s.
Proof. induction s; simpl; congruence. Qed.

Lemma append_assoc s t u : (s +:+ t) +:+ u = s +:+ t +:+ u.
Proof. induction s; simpl; congruence. Qed.

Lemma snoc_append s c t : Re.snoc s c +:+ t = s +:+ String c t.
Proof. unfold Re.snoc. now rewrite append_assoc. Qed.

Lemma any_append p s t : Str.any p (s +:+ t) = Str.any p s || Str.any p t.
Proof. induction s; simpl; [reflexivity|]. rewrite IHs. now rewrite orb_assoc. Qed.

Lemma isEmpty_false s : Str.isEmpty s = false <-> s <> EmptyString.
Proof. destruct s; simpl; split; congruence. Qed.

Lemma trimStart_length s : (String.length (Str.trimStart s) <= String.length s)%nat.
Proof. induction s as [|c r IH]; simpl; [lia|]. destruct (Chr.isWhiteSpace c); simpl; lia. Qed.

Lemma trimStart_fixed c r :
  Str.trimStart (String c r) = String c r -> Chr.isWhiteSpace c = false.
Proof.
  simpl. destruct (Chr.isWhiteSpace c); [|reflexivity].
  intros E. pose proof (trimStart_length r) as L. rewrite E in L. simpl in L. lia.
Qed.

Lemma trimStart_no_space s : Str.any Chr.isWhiteSpace s = false -> Str.trimStart s = s.
Proof.
  destruct s as [|c r]; simpl; [reflexivity|].
  destruct (Chr.isWhiteSpace c); [discriminate | reflexivity].
Qed.

Lemma trimEnd_idem s : Str.trimEnd (Str.trimEnd s) = Str.trimEnd s.
Proof.
  induction s as [|c r IH]; simpl; [reflexivity|].
  destruct (Chr.isWhiteSpace c && Str.isEmpty (Str.trimEnd r)) eqn:E; simpl;
    [reflexivity|]. now rewrite IH, E.
Qed.

Lemma trimEnd_fixed c r :
  Str.trimEnd (String c r) = String c r ->
  Str.trimEnd r = r /\ (Chr.isWhiteSpace c = false \/ r <> EmptyString).
Proof.
  simpl. destruct (Chr.isWhiteSpace c) eqn:W; simpl.
  - destruct (Str.isEmpty (Str.trimEnd r)) eqn:E; [discriminate|].
    intros [= H]. split; [exact H|]. right. intros ->. discriminate.
  - intros [= H]. split; [exact H | now left].
Qed.

Lemma trim_startsClean s : Str.trimStart (Str.trim s) = Str.trim s.
Proof.
  unfold Str.trim.
  destruct (Str.trimStart s) as [|c r] eqn:E; [reflexivity|].
  assert (W : Chr.isWhiteSpace c = false).
  { apply (trimStart_fixed c r). rewrite <- E. clear E.
    induction s as [|a s IH]; simpl; [reflexivity|].
    destruct (Chr.isWhiteSpace a) eqn:Wa; [exact IH | simpl; now rewrite Wa]. }
  simpl. rewrite W. simpl. now rewrite W.
Qed.

Lemma trim_endsClean s : Str.trimEnd (Str.trim s) = Str.trim s.
Proof. apply trimEnd_idem. Qed.

Lemma splitRuns_cons b s : exists h t, Str.splitRuns b s = h :: t.
Proof.
  revert b. induction s as [|c r IH]; intros b; simpl; [eauto|].
  destruct (Chr.isWhiteSpace c).
  - destruct b; [apply IH | eauto].
  - destruct (IH false) as (h & t & ->). eauto.
Qed.

(** No token holds white space. *)
Lemma splitRuns_no_space b s :
  Forall (fun p => Str.any Chr.isWhiteSpace p = false) (Str.splitRuns b s).
Proof.
  revert b. induction s as [|c r IH]; intros b; simpl.
  - repeat constructor.
  - destruct (Chr.isWhiteSpace c) eqn:W.
    + destruct b; [apply IH | constructor; [reflexivity | apply IH]].
    + specialize (IH false). destruct (Str.splitRuns false r) as [|h t].
      * repeat constructor. simpl. now rewrite W.
      * inversion IH; subst. constructor; [simpl; now rewrite W | assumption].
Qed.

(** Of a text that does not end in white space, only the first piece can be
    empty, and only when the text starts with white space or is empty. *)
Lemma splitRuns_nonempty s :
  Str.trimEnd s = s ->
  Forall (fun p => p <> EmptyString) (tail (Str.splitRuns false s))
  /\ (s <> EmptyString -> Forall (fun p => p <> EmptyString) (Str.splitRuns true s)).
Proof.
  induction s as [|c r IH]; intros E.
  - split; [constructor | congruence].
  - apply trimEnd_fixed in E as [Er Ec]. specialize (IH Er) as [IH1 IH2].
    simpl. destruct (Chr.isWhiteSpace c) eqn:W.
    + assert (Hr : r <> EmptyString) by (destruct Ec; congruence).
      split; [simpl; auto | auto].
    + destruct (splitRuns_cons false r) as (h & t & Eq). rewrite Eq in *.
      simpl in IH1. split; [exact IH1 | intros _; constructor; [discriminate | exact IH1]].
Qed.

(** The tokens of a trimmed, non-empty line are all non-empty. *)
Lemma tokens_nonempty t :
  t <> EmptyString -> Str.trimStart t = t -> Str.trimEnd t = t ->
  Forall (fun p => p <> EmptyString) (Str.splitWhiteSpace t).
Proof.
  intros Hne Hs He. destruct t as [|c r]; [congruence|].
  pose proof (trimStart_fixed c r Hs) as W.
  destruct (splitRuns_nonempty _ He) as [H1 _].
  unfold Str.splitWhiteSpace in *. simpl in *. rewrite W in *.
  destruct (Str.splitRuns false r) as [|h tl]; constructor;
    solve [discriminate | constructor | exact H1].
Qed.

(** ** The scan, line by line *)

(** The callback does to the scan what the kind of the line says. *)
Lemma scanLine_classify st line : scanLine st line = record st (classify line).
Proof.
  unfold scanLine, classify.
  destruct (Str.isEmpty (Str.trim line)) eqn:E; [reflexivity|].
  destruct (mappingMatch (Str.trim line)) as [[g1 g2]|]; [reflexivity|].
  pose proof (tokens_nonempty (Str.trim line)
                (proj1 (isEmpty_false _) E) (trim_startsClean line) (trim_endsClean line)) as T.
  destruct (Str.splitWhiteSpace (Str.trim line)) as [|t0 [|t1 [|t2 [|t3 rest]]]];
    try reflexivity.
  simpl. destruct (parseInt t0) as [|v]; [reflexivity|].
  inversion T as [|? ? _ T1]; subst. inversion T1 as [|? ? N1 T2]; subst.
  inversion T2 as [|? ? _ T3]; subst. inversion T3 as [|? ? N3 _]; subst.
  apply isEmpty_false in N1, N3. now rewrite N1, N3.
Qed.

(** The records are the bindings of the lines, in the order of the lines. *)
Lemma scan_clients ls st :
  seenClients (fold_left scanLine ls st) = seenClients st ++ omap bindingOf ls.
Proof.
  revert st. induction ls as [|l ls IH]; intros st; simpl.
  - now rewrite app_nil_r.
  - rewrite IH, scanLine_classify. unfold bindingOf.
    destruct (classify l); simpl; try reflexivity. now rewrite <- app_assoc.
Qed.

(** A line that declares nothing for [key] leaves the entry of [key] alone. *)
Lemma scanLine_other_key st l key :
  (forall k n, declarationOf l = Some (k, n) -> k <> key) ->
  seenMappings (scanLine st l) !! key = seenMappings st !! key.
Proof.
  intros H. rewrite scanLine_classify. unfold declarationOf in H.
  destruct (classify l) as [|k n| |]; simpl; try reflexivity.
  apply lookup_insert_ne. now apply (H k n).
Qed.

Lemma scan_other_key ls st key :
  Forall (fun l => forall k n, declarationOf l = Some (k, n) -> k <> key) ls ->
  seenMappings (fold_left scanLine ls st) !! key = seenMappings st !! key.
Proof.
  intros H. revert st. induction H as [|l ls Hl _ IH]; intros st; simpl;
    [reflexivity|]. rewrite IH. now apply scanLine_other_key.
Qed.

(** Blank and noise lines change nothing. *)
Lemma scanLine_skip st l :
  classify l = Blank \/ classify l = Noise -> scanLine st l = st.
Proof. rewrite scanLine_classify. now intros [-> | ->]. Qed.

Lemma scanLines_skip ls1 l ls2 :
  classify l = Blank \/ classify l = Noise ->
  scanLines (ls1 ++ l :: ls2) = scanLines (ls1 ++ ls2).
Proof.
  intros H. unfold scanLines. rewrite !fold_left_app. simpl.
  now rewrite (scanLine_skip _ _ H).
Qed.

Lemma parse_clients content :
  clients (parseFileContent content)
  = omap bindingOf (Str.split "010" (Str.trim content)).
Proof. unfold parseFileContent, scanLines. simpl. now rewrite scan_clients. Qed.

(** ** Numbers *)

Lemma to_int_not_nil z : Z.to_int z <> Decimal.Pos Decimal.Nil /\ Z.to_int z <> Decimal.Neg Decimal.Nil.
Proof.
  destruct z as [|p|p]; simpl; split; try discriminate;
    intros [= H]; now apply (DecimalPos.Unsigned.to_uint_nonnil p).
Qed.

(** Two integers that print alike are equal. *)
Lemma Number_toString_inj z1 z2 :
  Number_toString (Int z1) = Number_toString (Int z2) -> z1 = z2.
Proof.
  simpl. intros E. apply DecimalZ.to_int_inj.
  destruct (to_int_not_nil z1) as [P1 N1], (to_int_not_nil z2) as [P2 N2].
  pose proof (NilZero.isi _ P1 N1) as H1. pose proof (NilZero.isi _ P2 N2) as H2.
  rewrite E in H1. congruence.
Qed.

Lemma digitsValue_nonneg s acc :
  Str.all Chr.isDigit s = true -> 0 <= acc -> 0 <= digitsValue acc s.
Proof.
  revert acc. induction s as [|c r IH]; intros acc A H; simpl; [exact H|].
  simpl in A. apply andb_prop in A as [Ac Ar].
  apply IH; [exact Ar|]. pose proof (digitValue_range c Ac). lia.
Qed.

Lemma takeWhile_all p s : Str.all p s = true -> Str.takeWhile p s = s.
Proof.
  induction s as [|c r IH]; simpl; [reflexivity|].
  intros A. apply andb_prop in A as [-> Ar]. now rewrite IH.
Qed.

(** A run of digits parses to the number it spells, which is not negative. *)
Lemma parseInt_digits d :
  d <> EmptyString -> Str.all Chr.isDigit d = true ->
  parseInt d = Int (digitsValue 0 d) /\ 0 <= digitsValue 0 d.
Proof.
  intros Hne A. split; [|apply digitsValue_nonneg; [exact A | lia]].
  destruct d as [|c r]; [congruence|]. unfold parseInt.
  pose proof A as A'. simpl in A'. apply andb_prop in A' as [Ac Ar].
  assert (W : Chr.isWhiteSpace c = false) by now apply digit_not_whiteSpace.
  assert (M : Str.isChar "-" c = false) by (revert Ac; clear; each_char c).
  assert (P : Str.isChar "+" c = false) by (revert Ac; clear; each_char c).
  cbn [Str.trimStart]. rewrite W, M, P. now rewrite takeWhile_all.
Qed.

(** Only a leading minus sign makes the parsed number negative. *)
Lemma parseInt_negative s v :
  parseInt s = Int v -> v < 0 ->
  exists r, Str.trimStart s = String "-" r.
Proof.
  unfold parseInt. destruct (Str.trimStart s) as [|c r] eqn:E.
  - simpl. discriminate.
  - destruct (Str.isChar "-" c) eqn:M.
    + apply isChar_eq in M as ->. eauto.
    + intros H Hv. exfalso.
      assert (exists t, Int v = (if Str.isEmpty (Str.takeWhile Chr.isDigit t) then NaN
                                 else Int (digitsValue 0 (Str.takeWhile Chr.isDigit t))))
        as [t Ht] by (destruct (Str.isChar "+" c); eauto).
      destruct (Str.isEmpty (Str.takeWhile Chr.isDigit t)); [discriminate|].
      injection Ht as ->.
      assert (0 <= digitsValue 0 (Str.takeWhile Chr.isDigit t)); [|lia].
      apply digitsValue_nonneg; [|lia]. clear.
      induction t as [|a t IH]; simpl; [reflexivity|].
      destruct (Chr.isDigit a) eqn:D; simpl; [now rewrite D|reflexivity].
Qed.

(** Printing and parsing back: the key a VLAN id is stored under reads back
    as that id. *)
Lemma digitsValue_acc d acc :
  digitsValue (Z.pos acc) (NilEmpty.string_of_uint d) = Z.pos (Pos.of_uint_acc d acc).
Proof.
  revert acc. induction d; intros acc; simpl; try reflexivity;
    rewrite <- IHd; f_equal; unfold digitValue; simpl; lia.
Qed.

Lemma digitsValue_of_uint d :
  digitsValue 0 (NilEmpty.string_of_uint d) = Z.of_N (Pos.of_uint d).
Proof.
  induction d; simpl; try reflexivity; try exact IHd;
    change (Z.of_N (N.pos ?p)) with (Z.pos p); rewrite <- digitsValue_acc; reflexivity.
Qed.

Lemma string_of_uint_digits d : Str.all Chr.isDigit (NilEmpty.string_of_uint d) = true.
Proof. induction d; simpl; try reflexivity; exact IHd. Qed.

Lemma parseInt_toString z : parseInt (Number_toString (Int z)) = Int z.
Proof.
  destruct z as [|p|p]; [reflexivity| |]; simpl;
    pose proof (DecimalPos.Unsigned.to_uint_nonnil p) as N;
    pose proof (DecimalPos.Unsigned.of_to p) as R;
    assert (E : NilZero.string_of_uint (Pos.to_uint p)
                = NilEmpty.string_of_uint (Pos.to_uint p))
      by (destruct (Pos.to_uint p); [congruence | reflexivity..]);
    rewrite E.
  - destruct (parseInt_digits (NilEmpty.string_of_uint (Pos.to_uint p))) as [-> _].
    + destruct (Pos.to_uint p); [congruence | discriminate..].
    + apply string_of_uint_digits.
    + now rewrite digitsValue_of_uint, R.
  - unfold parseInt. cbn [Str.trimStart].
    change (Chr.isWhiteSpace "-") with false. cbv iota.
    change (Str.isChar "-" "-") with true. cbv iota.
    rewrite (takeWhile_all _ _ (string_of_uint_digits _)).
    destruct (NilEmpty.string_of_uint (Pos.to_uint p)) eqn:S.
    + destruct (Pos.to_uint p); [congruence | discriminate..].
    + simpl Str.isEmpty. cbv iota. rewrite <- S, digitsValue_of_uint, R. reflexivity.
Qed.

(** ** The mapping pattern *)

Lemma greedy_all p k d : forall taken rest r,
  Str.all p d = true -> firstIs p rest = false ->
  k (taken +:+ d) rest = Some r ->
  Re.greedy p k taken (d +:+ rest) = Some r.
Proof.
  induction d as [|c d IH]; intros taken rest r A F K.
  - rewrite append_empty_r in K. simpl.
    destruct rest as [|a rest]; simpl in *; [exact K | now rewrite F].
  - simpl in A. apply andb_prop in A as [Ac Ad]. simpl. rewrite Ac.
    rewrite (IH (Re.snoc taken c) rest r Ad F); [reflexivity|].
    now rewrite snoc_append.
Qed.

Lemma lazy_all p k d : forall taken rest r,
  Str.all p d = true ->
  (forall d1 c d2, d = d1 +:+ String c d2 ->
                   k (taken +:+ d1) (String c d2 +:+ rest) = None) ->
  k (taken +:+ d) rest = Some r ->
  Re.lazy p k taken (d +:+ rest) = Some r.
Proof.
  induction d as [|c d IH]; intros taken rest r A F K.
  - rewrite append_empty_r in K. simpl.
    destruct rest; simpl; now rewrite K.
  - simpl in A. apply andb_prop in A as [Ac Ad]. simpl.
    pose proof (F EmptyString c d eq_refl) as F0. rewrite append_empty_r in F0.
    simpl in F0. rewrite F0, Ac. simpl. apply IH; [exact Ad | |].
    + intros d1 a d2 ->. rewrite snoc_append. now apply (F (String c d1) a d2).
    + now rewrite snoc_append.
Qed.

Lemma firstIs_append p s t :
  firstIs p (s +:+ t) = if Str.isEmpty s then firstIs p t else firstIs p s.
Proof. now destruct s. Qed.

Lemma firstIs_all p q s :
  (forall c, p c = true -> q c = false) -> Str.all p s = true -> firstIs q s = false.
Proof.
  intros H. destruct s as [|c r]; simpl; [reflexivity|].
  intros A. apply andb_prop in A as [Ac _]. now apply H.
Qed.

Lemma lastIs_snoc p s c : lastIs p (s +:+ String c EmptyString) = p c.
Proof.
  induction s as [|a s IH]; simpl; [reflexivity|].
  rewrite IH. now destruct s.
Qed.

#[local] Arguments Re.exec : simpl never.

(** The closing quote and the end of the line: nothing, or one quote. *)
Lemma exec_closing s :
  Re.exec (drop 6 mappingPattern) s
  = match s with
    | EmptyString => Some []
    | String c EmptyString => if Chr.isQuote c then Some [] else None
    | _ => None
    end.
Proof.
  change (Re.optional Chr.isQuote
            (fun _ rest => (fun g => g) <$> (if Str.isEmpty rest then Some [] else None)) s
          = match s with
            | EmptyString => Some []
            | String c EmptyString => if Chr.isQuote c then Some [] else None
            | _ => None
            end).
  unfold Re.optional, Re.once.
  destruct s as [|c [|c' r]]; simpl;
    [reflexivity | destruct (Chr.isQuote c); reflexivity..].
Qed.

(** The segment name, taken lazily up to the closing quote. *)
Lemma exec_name name quote :
  Str.all Chr.isDot name = true ->
  Str.all Chr.isQuote quote = true -> (String.length quote <= 1)%nat ->
  (quote = EmptyString -> lastIs Chr.isQuote name = false) ->
  Re.exec (drop 5 mappingPattern) (name +:+ quote) = Some [name].
Proof.
  intros Dn Qq Lq Last.
  change (Re.lazy Chr.isDot
            (fun taken rest => (fun g => taken :: g) <$> Re.exec (drop 6 mappingPattern) rest)
            EmptyString (name +:+ quote) = Some [name]).
  apply lazy_all; [exact Dn | |].
  - intros d1 c d2 ->. rewrite exec_closing. simpl.
    destruct d2 as [|a d2]; simpl; [|now destruct (d2 +:+ quote)].
    destruct quote as [|qc quote]; simpl; [|reflexivity].
    specialize (Last eq_refl). rewrite lastIs_snoc in Last. now rewrite Last.
  - rewrite exec_closing. simpl.
    destruct quote as [|qc [|? ?]]; simpl in *; [reflexivity | | lia].
    rewrite andb_true_r in Qq. now rewrite Qq.
Qed.

(** The opening quote, then the name. *)
Lemma exec_quoted name quote :
  Str.all Chr.isDot name = true ->
  Str.all Chr.isQuote quote = true -> (String.length quote <= 1)%nat ->
  (quote = EmptyString ->
   firstIs Chr.isQuote name = false /\ lastIs Chr.isQuote name = false) ->
  Re.exec (drop 4 mappingPattern) (quote +:+ name +:+ quote) = Some [name].
Proof.
  intros Dn Qq Lq Bare.
  assert (N : Re.exec (drop 5 mappingPattern) (name +:+ quote) = Some [name])
    by (apply exec_name; try assumption; intros E; now apply Bare).
  change (Re.optional Chr.isQuote
            (fun taken rest => (fun g => g) <$> Re.exec (drop 5 mappingPattern) rest)
            (quote +:+ name +:+ quote) = Some [name]).
  unfold Re.optional, Re.once.
  destruct quote as [|qc [|? ?]]; simpl in *; [| | lia].
  - destruct (Bare eq_refl) as [F _]. rewrite append_empty_r in *.
    destruct name as [|c r]; simpl in *; [reflexivity|]. rewrite F. simpl.
    now rewrite N.
  - rewrite andb_true_r in Qq. rewrite Qq. now rewrite N.
Qed.

(** A line of the declared shape matches, and the groups are its digits and
    its segment name without the quotes. *)
Lemma mappingMatch_shape digits ws1 ws2 quote name :
  declarationShape digits ws1 ws2 quote name = true ->
  mappingMatch (declarationLine digits ws1 ws2 quote name) = Some (digits, name).
Proof.
  unfold declarationShape. intros H.
  apply andb_prop in H as [H Hbare]. apply andb_prop in H as [H Hdot].
  apply andb_prop in H as [H Hlen]. apply andb_prop in H as [H Hq].
  apply andb_prop in H as [H Hw2]. apply andb_prop in H as [H Hw1].
  apply andb_prop in H as [Hne Hdig]. apply Nat.leb_le in Hlen.
  assert (Bare : quote = EmptyString ->
                 firstIs Chr.isWhiteSpace name = false
                 /\ firstIs Chr.isQuote name = false /\ lastIs Chr.isQuote name = false).
  { intros ->. simpl in Hbare.
    apply andb_prop in Hbare as [Hbare B3]. apply andb_prop in Hbare as [B1 B2].
    repeat split; now apply negb_true_iff. }
  assert (E4 : Re.exec (drop 4 mappingPattern) (quote +:+ name +:+ quote) = Some [name])
    by (apply exec_quoted; try assumption; intros E; now apply Bare).
  assert (E3 : Re.exec (drop 3 mappingPattern) (ws2 +:+ quote +:+ name +:+ quote)
               = Some [name]).
  { change (Re.greedy Chr.isWhiteSpace
              (fun taken rest => (fun g => g) <$> Re.exec (drop 4 mappingPattern) rest)
              EmptyString (ws2 +:+ quote +:+ name +:+ quote) = Some [name]).
    apply greedy_all; [assumption | | now rewrite E4].
    rewrite firstIs_append. destruct quote as [|qc quote]; simpl.
    - rewrite append_empty_r. now apply Bare.
    - simpl in Hq. apply andb_prop in Hq as [Q _]. now apply quote_not_whiteSpace. }
  assert (E2 : Re.exec (drop 2 mappingPattern)
                 ("=" +:+ ws2 +:+ quote +:+ name +:+ quote) = Some [name]).
  { change (Re.once Chr.isEquals
              (fun taken rest => (fun g => g) <$> Re.exec (drop 3 mappingPattern) rest)
              EmptyString ("=" +:+ ws2 +:+ quote +:+ name +:+ quote) = Some [name]).
    unfold Re.once. simpl in E3 |- *. now rewrite E3. }
  assert (E1 : Re.exec (drop 1 mappingPattern)
                 (ws1 +:+ "=" +:+ ws2 +:+ quote +:+ name +:+ quote) = Some [name]).
  { change (Re.greedy Chr.isWhiteSpace
              (fun taken rest => (fun g => g) <$> Re.exec (drop 2 mappingPattern) rest)
              EmptyString (ws1 +:+ "=" +:+ ws2 +:+ quote +:+ name +:+ quote)
            = Some [name]).
    apply greedy_all; [assumption | reflexivity | now rewrite E2]. }
  unfold mappingMatch, declarationLine.
  destruct digits as [|c d]; [discriminate|].
  simpl in Hdig. apply andb_prop in Hdig as [Dc Dd].
  change (match Re.plus Chr.isDigit
                  (fun taken rest => (fun g => taken :: g) <$> Re.exec (drop 1 mappingPattern) rest)
                  (String c (d +:+ ws1 +:+ "=" +:+ ws2 +:+ quote +:+ name +:+ quote))
          with Some [g1; g2] => Some (g1, g2) | _ => None end = Some (String c d, name)).
  unfold Re.plus. rewrite Dc.
  rewrite (greedy_all _ _ d _ _ [String c d; name]); [reflexivity | exact Dd | |].
  - rewrite firstIs_append. destruct (Str.isEmpty ws1); [reflexivity|].
    now apply (firstIs_all Chr.isWhiteSpace); [apply whiteSpace_not_digit|].
  - rewrite snoc_append. simpl in E1 |- *. now rewrite E1.
Qed.

(** ** Splitting and joining *)

Lemma join_cons sep x l :
  Str.join sep (x :: l)
  = match l with [] => x | _ => x +:+ sep +:+ Str.join sep l end.
Proof. now destruct l. Qed.

Lemma split_plain sep s :
  Str.any (Str.isChar sep) s = false -> Str.split sep s = [s].
Proof.
  induction s as [|c r IH]; simpl; [reflexivity|].
  destruct (Str.isChar sep c); [discriminate|]. intros A. now rewrite IH.
Qed.

Lemma split_append sep x rest :
  Str.any (Str.isChar sep) x = false ->
  Str.split sep (x +:+ String sep rest) = x :: Str.split sep rest.
Proof.
  induction x as [|c r IH]; simpl.
  - intros _. unfold Str.isChar. now rewrite Ascii.eqb_refl.
  - destruct (Str.isChar sep c); [discriminate|]. intros A. now rewrite IH.
Qed.

(** Splitting undoes joining when no piece holds the separator. *)
Lemma split_join sep l :
  l <> [] ->
  Forall (fun p => Str.any (Str.isChar sep) p = false) l ->
  Str.split sep (Str.join (String sep EmptyString) l) = l.
Proof.
  intros Hne H. induction H as [|x l Hx Hl IH]; [congruence|].
  rewrite join_cons. destruct l as [|y l].
  - now apply split_plain.
  - simpl String.append. rewrite split_append by exact Hx.
    f_equal. now apply IH.
Qed.

Lemma any_join p sep l :
  Str.any p sep = false -> Forall (fun x => Str.any p x = false) l ->
  Str.any p (Str.join sep l) = false.
Proof.
  intros Hs H. induction H as [|x l Hx Hl IH]; [reflexivity|].
  rewrite join_cons. destruct l; [exact Hx|].
  now rewrite !any_append, Hx, Hs, IH.
Qed.

Lemma lastIs_append p s t :
  t <> EmptyString -> lastIs p (s +:+ t) = lastIs p t.
Proof.
  intros Ht. induction s as [|c r IH]; simpl; [reflexivity|].
  rewrite IH. destruct (r +:+ t) eqn:E; [|reflexivity].
  destruct r; simpl in E; congruence.
Qed.

(** ** MAC addresses *)

Lemma any_toLowerCase p s :
  (forall c, p (Chr.toLower c) = p c) ->
  Str.any p (Str.toLowerCase s) = Str.any p s.
Proof. intros H. induction s as [|c r IH]; simpl; [reflexivity|]. now rewrite H, IH. Qed.

Lemma any_keep p q s : Str.any p s = false -> Str.any p (Str.keep q s) = false.
Proof.
  induction s as [|c r IH]; simpl; [reflexivity|].
  intros A. apply orb_false_elim in A as [Ac Ar].
  destruct (q c); simpl; [rewrite Ac|]; now apply IH.
Qed.

Lemma keep_sound q s : Str.any (fun c => negb (q c)) (Str.keep q s) = false.
Proof.
  induction s as [|c r IH]; simpl; [reflexivity|].
  destruct (q c) eqn:E; simpl; [now rewrite E|exact IH].
Qed.

(** Where [.] takes every character, the matches are the octets. *)
Lemma matchPairs_octets s :
  Str.all Chr.isDot s = true -> Str.matchPairs s = octets s.
Proof.
  enough (H : (Str.all Chr.isDot s = true -> Str.matchPairs s = octets s)
              /\ forall c, Str.all Chr.isDot (String c s) = true ->
                           Str.matchPairs (String c s) = octets (String c s))
    by apply H.
  induction s as [|d r [IH1 IH2]].
  - split; [reflexivity|]. intros c. simpl. rewrite andb_true_r. now intros ->.
  - split; [apply IH2|]. intros c A.
    simpl in A. apply andb_prop in A as [Ac A]. apply andb_prop in A as [Ad Ar].
    simpl. rewrite Ac, Ad. f_equal. now apply IH1.
Qed.

Lemma any_matchPairs p s :
  p ":"%char = false -> Str.any p s = false ->
  Str.any p (Str.join ":" (Str.matchPairs s)) = false.
Proof.
  intros Hc.
  enough (H : (Str.any p s = false ->
               Forall (fun x => Str.any p x = false) (Str.matchPairs s))
              /\ forall c, Str.any p (String c s) = false ->
                           Forall (fun x => Str.any p x = false) (Str.matchPairs (String c s))).
  { intros A. apply any_join; [simpl; now rewrite Hc | now apply H]. }
  induction s as [|d r [IH1 IH2]].
  - split; [constructor|]. intros c A. simpl in *.
    destruct (Chr.isDot c); repeat constructor. simpl. exact A.
  - split; [apply IH2|]. intros c A.
    pose proof A as A'. simpl in A'. apply orb_false_elim in A' as [Ac A'].
    pose proof A' as A''. apply orb_false_elim in A'' as [Ad Ar].
    change (Str.matchPairs (String c (String d r)))
      with (if Chr.isDot c
            then if Chr.isDot d
                 then String c (String d EmptyString) :: Str.matchPairs r
                 else String c EmptyString :: Str.matchPairs (String d r)
            else Str.matchPairs (String d r)).
    destruct (Chr.isDot c); [|now apply IH2].
    destruct (Chr.isDot d); constructor; simpl;
      solve [now rewrite ?Ac, ?Ad | now apply IH1 | now apply IH2].
Qed.

(** Formatting brings in no character but the colon. *)
Lemma any_formatMacAddress p m :
  p ":"%char = false -> (forall c, p (Chr.toLower c) = p c) ->
  Str.any p m = false -> Str.any p (formatMacAddress m) = false.
Proof.
  intros Hc Hl A. unfold formatMacAddress.
  assert (C : Str.any p (Str.removeSeparators (Str.toLowerCase m)) = false)
    by (apply any_keep; now rewrite any_toLowerCase).
  destruct (String.length _ =? 12)%nat; [|exact C].
  pose proof (any_matchPairs p _ Hc C) as J.
  destruct (Str.matchPairs _); [exact C | exact J].
Qed.

Lemma octets_twelve s :
  String.length s = 12%nat ->
  length (octets s) = 6%nat /\ Forall (fun o => String.length o = 2%nat) (octets s).
Proof.
  intros L. do 12 (destruct s as [|? s]; [discriminate|]).
  destruct s; [|discriminate]. simpl. split; [reflexivity | repeat constructor].
Qed.

Lemma formatMacAddress_twelve m :
  String.length (Str.removeSeparators (Str.toLowerCase m)) = 12%nat ->
  Str.all Chr.isDot (Str.removeSeparators (Str.toLowerCase m)) = true ->
  formatMacAddress m = Str.join ":" (octets (Str.removeSeparators (Str.toLowerCase m))).
Proof.
  intros L D. unfold formatMacAddress. rewrite L. simpl Nat.eqb. cbv iota.
  rewrite (matchPairs_octets _ D).
  destruct (octets_twelve _ L) as [L6 _].
  now destruct (octets _).
Qed.

Lemma formatMacAddress_other m :
  String.length (Str.removeSeparators (Str.toLowerCase m)) <> 12%nat ->
  formatMacAddress m = Str.removeSeparators (Str.toLowerCase m).
Proof.
  intros L. unfold formatMacAddress. apply Nat.eqb_neq in L. now rewrite L.
Qed.

Lemma all_weaken (p q : ascii -> bool) s :
  (forall c, p c = true -> q c = true) -> Str.all p s = true -> Str.all q s = true.
Proof.
  intros H. induction s as [|c r IH]; simpl; [reflexivity|].
  intros A. apply andb_prop in A as [Ac Ar]. now rewrite (H c Ac), IH.
Qed.

Lemma any_weaken (p q : ascii -> bool) s :
  (forall c, p c = true -> q c = true) -> Str.any q s = false -> Str.any p s = false.
Proof.
  intros H. induction s as [|c r IH]; simpl; [reflexivity|].
  intros A. apply orb_false_elim in A as [Ac Ar]. rewrite (IH Ar), orb_false_r.
  destruct (p c) eqn:E; [|reflexivity]. now rewrite (H c E) in Ac.
Qed.

(** ** Rows and lines of the CSV *)

Lemma rowOf_no_newline m c : newlineFree m c = true -> hasNewline (rowOf m c) = false.
Proof.
  unfold newlineFree. intros H. apply andb_prop in H as [H1 H2].
  apply negb_true_iff in H1, H2.
  apply any_join; [reflexivity|]. repeat constructor; assumption.
Qed.

Lemma csvLines_generateCsv cs m :
  Forall (fun c => newlineFree m c = true) cs ->
  csvLines (generateCsv cs m) = Str.join "," headers :: map (rowOf m) cs.
Proof.
  intros H. apply split_join; [discriminate|].
  constructor; [reflexivity|]. apply Forall_map.
  eapply Forall_impl; [exact H|]. intros c. apply rowOf_no_newline.
Qed.

Lemma csvFields_rowOf m c : commaFree m c = true -> csvFields (rowOf m c) = rowFields m c.
Proof.
  unfold commaFree. intros H. apply andb_prop in H as [H1 H2].
  apply negb_true_iff in H1, H2.
  apply split_join; [discriminate|]. repeat constructor; assumption.
Qed.

(** The first line of the CSV is the header line, whatever the rows hold. *)
Lemma csvLines_head cs m : head (csvLines (generateCsv cs m)) = Some (Str.join "," headers).
Proof.
  unfold csvLines, generateCsv. rewrite join_cons.
  destruct (map (rowOf m) cs) as [|r rs]; [reflexivity|].
  change (head (Str.split "010"
                  (Str.join "," headers
                   +:+ String "010" (Str.join (String "010" EmptyString) (r :: rs))))
          = Some (Str.join "," headers)).
  now rewrite split_append.
Qed.

(** ** What the parser puts in a record *)

Lemma bindingOf_tokens line c :
  bindingOf line = Some c ->
  Str.any Chr.isWhiteSpace (mac c) = false
  /\ exists t0 v, head (Str.splitWhiteSpace (Str.trim line)) = Some t0
                  /\ Str.any Chr.isWhiteSpace t0 = false
                  /\ parseInt t0 = Int v /\ vlan c = Int v.
Proof.
  unfold bindingOf, classify.
  destruct (Str.isEmpty (Str.trim line)); [discriminate|].
  destruct (mappingMatch (Str.trim line)) as [[? ?]|]; [discriminate|].
  pose proof (splitRuns_no_space false (Str.trim line)) as T.
  fold (Str.splitWhiteSpace (Str.trim line)) in T.
  destruct (Str.splitWhiteSpace (Str.trim line)) as [|t0 [|t1 [|t2 [|t3 rest]]]];
    try discriminate.
  destruct (parseInt t0) as [|v] eqn:P; [discriminate|]. intros [= <-]. simpl.
  inversion T as [|? ? N0 T1]; subst. inversion T1 as [|? ? N1 _]; subst.
  split; [exact N1|]. exists t0, v. auto.
Qed.

Lemma parse_newlineFree content m :
  map_Forall (fun _ seg => hasNewline seg = false) m ->
  Forall (fun c => newlineFree m c = true) (clients (parseFileContent content)).
Proof.
  intros Hm. rewrite parse_clients. apply Forall_forall. intros c Hc.
  apply list_elem_of_omap in Hc as (line & _ & Hb).
  apply bindingOf_tokens in Hb as [Hmac _].
  unfold newlineFree. apply andb_true_intro. split; apply negb_true_iff.
  - apply any_formatMacAddress; [reflexivity | apply toLower_newline |].
    revert Hmac. apply any_weaken. apply newline_whiteSpace.
  - unfold segmentOf. destruct (m !! _) as [seg|] eqn:E; [|reflexivity].
    simpl. exact (Hm _ _ E).
Qed.

Lemma greedy_sound p k s : forall taken r,
  Re.greedy p k taken s = Some r ->
  exists d rest, s = d +:+ rest /\ Str.all p d = true /\ k (taken +:+ d) rest = Some r.
Proof.
  induction s as [|c s IH]; intros taken r; simpl.
  - intros K. exists EmptyString, EmptyString. simpl. now rewrite append_empty_r.
  - destruct (p c) eqn:Pc.
    + destruct (Re.greedy p k (Re.snoc taken c) s) as [r'|] eqn:G; simpl.
      * intros [= <-]. apply IH in G as (d & rest & -> & A & K).
        exists (String c d), rest. simpl. rewrite Pc, A.
        rewrite snoc_append in K. auto.
      * intros K. exists EmptyString, (String c s). simpl. now rewrite append_empty_r.
    + intros K. exists EmptyString, (String c s). simpl. now rewrite append_empty_r.
Qed.

Lemma lazy_sound p k s : forall taken r,
  Re.lazy p k taken s = Some r ->
  exists d rest, s = d +:+ rest /\ Str.all p d = true /\ k (taken +:+ d) rest = Some r.
Proof.
  induction s as [|c s IH]; intros taken r; simpl.
  - destruct (k taken EmptyString) eqn:K; simpl; [|discriminate].
    intros [= <-]. exists EmptyString, EmptyString. simpl. now rewrite append_empty_r.
  - destruct (k taken (String c s)) eqn:K; simpl.
    + intros [= <-]. exists EmptyString, (String c s). simpl. now rewrite append_empty_r.
    + destruct (p c) eqn:Pc; [|discriminate]. intros G.
      apply IH in G as (d & rest & -> & A & K').
      exists (String c d), rest. simpl. rewrite Pc, A.
      rewrite snoc_append in K'. auto.
Qed.

Lemma optional_sound p k s r :
  Re.optional p k s = Some r ->
  exists q rest, s = q +:+ rest /\ Str.all p q = true /\ (String.length q <= 1)%nat
                 /\ k q rest = Some r.
Proof.
  unfold Re.optional, Re.once. destruct s as [|c s]; simpl.
  - intros K. exists EmptyString, EmptyString. auto.
  - destruct (p c) eqn:Pc; simpl.
    + destruct (k (Re.snoc EmptyString c) s) eqn:K; simpl.
      * intros [= <-]. exists (String c EmptyString), s. simpl. rewrite Pc. auto.
      * intros K'. exists EmptyString, (String c s). auto.
    + intros K'. exists EmptyString, (String c s). auto.
Qed.

Lemma fmap_some {A B} (f : A -> B) (x : option A) (y : B) :
  f <$> x = Some y -> exists a, x = Some a /\ y = f a.
Proof. destruct x; simpl; [intros [= <-]; eauto | discriminate]. Qed.

(** A matched line is its two groups with white space, the equals sign and
    at most one quote on either side of the name in between; the name holds
    no line terminator. *)
Lemma mappingMatch_sound t g1 g2 :
  mappingMatch t = Some (g1, g2) -> matchedShape t g1 g2.
Proof.
  unfold matchedShape, mappingMatch.
  destruct (Re.exec mappingPattern t) as [r|] eqn:E; [|discriminate].
  change (Re.plus Chr.isDigit
            (fun taken rest => (fun g => taken :: g) <$> Re.exec (drop 1 mappingPattern) rest) t
          = Some r) in E.
  unfold Re.plus in E. destruct t as [|c s]; [discriminate|].
  destruct (Chr.isDigit c) eqn:Dc; [|discriminate].
  apply greedy_sound in E as (d & s1 & -> & Ad & E).
  rewrite snoc_append in E. simpl in E.
  apply fmap_some in E as (r1 & E & ->).
  change (Re.greedy Chr.isWhiteSpace
            (fun taken rest => (fun g => g) <$> Re.exec (drop 2 mappingPattern) rest)
            EmptyString s1 = Some r1) in E.
  apply greedy_sound in E as (ws1 & s2 & -> & A1 & E).
  apply fmap_some in E as (r2 & E & ->).
  change (Re.once Chr.isEquals
            (fun taken rest => (fun g => g) <$> Re.exec (drop 3 mappingPattern) rest)
            EmptyString s2 = Some r2) in E.
  unfold Re.once in E. destruct s2 as [|e s3]; [discriminate|].
  destruct (Chr.isEquals e) eqn:Ee; [|discriminate].
  assert (e = "="%char) as -> by (revert Ee; clear; each_char e).
  apply fmap_some in E as (r3 & E & ->).
  change (Re.greedy Chr.isWhiteSpace
            (fun taken rest => (fun g => g) <$> Re.exec (drop 4 mappingPattern) rest)
            EmptyString s3 = Some r3) in E.
  apply greedy_sound in E as (ws2 & s4 & -> & A2 & E).
  apply fmap_some in E as (r4 & E & ->).
  change (Re.optional Chr.isQuote
            (fun taken rest => (fun g => g) <$> Re.exec (drop 5 mappingPattern) rest)
            s4 = Some r4) in E.
  apply optional_sound in E as (q1 & s5 & -> & Q1 & L1 & E).
  apply fmap_some in E as (r5 & E & ->).
  change (Re.lazy Chr.isDot
            (fun taken rest => (fun g => taken :: g) <$> Re.exec (drop 6 mappingPattern) rest)
            EmptyString s5 = Some r5) in E.
  apply lazy_sound in E as (n & q2 & -> & An & E).
  apply fmap_some in E as (r6 & E & ->).
  rewrite exec_closing in E.
  assert (Hq : r6 = [] /\ Str.all Chr.isQuote q2 = true /\ (String.length q2 <= 1)%nat).
  { destruct q2 as [|a [|? ?]]; try discriminate.
    - injection E as <-. auto.
    - simpl. destruct (Chr.isQuote a); [|discriminate]. injection E as <-. auto. }
  destruct Hq as (-> & Q2 & L2). intros [= <- <-].
  exists ws1, ws2, q1, q2. simpl. rewrite Dc, Ad.
  repeat split; try assumption; discriminate.
Qed.

(** The first group of a match is a non-empty run of digits. *)
Lemma mappingMatch_digits t g1 g2 :
  mappingMatch t = Some (g1, g2) ->
  g1 <> EmptyString /\ Str.all Chr.isDigit g1 = true.
Proof.
  intros M. apply mappingMatch_sound in M as (? & ? & ? & ? & _ & H1 & H2 & _).
  now split.
Qed.

(** Lines that declare another VLAN id store under another key. *)
Lemma declaredVlan_other_key l v :
  declaredVlan l <> Some (Int v) ->
  forall k n, declarationOf l = Some (k, n) -> k <> Number_toString (Int v).
Proof.
  unfold declaredVlan, declarationOf, classify. intros H k n.
  destruct (Str.isEmpty (Str.trim l)); [discriminate|].
  destruct (mappingMatch (Str.trim l)) as [[d n']|] eqn:M.
  - intros [= <- <-] E. apply H. f_equal.
    destruct (mappingMatch_digits _ _ _ M) as [Hne Hd].
    destruct (parseInt_digits d Hne Hd) as [P _]. rewrite P in E |- *.
    f_equal. now apply Number_toString_inj.
  - destruct (Str.splitWhiteSpace _) as [|? [|? [|? [|? ?]]]]; try discriminate.
    destruct (parseInt _); discriminate.
Qed.

(** ** The program at work *)

Example trim_both_ends : Str.trim "  1  a b   c  " = "1  a b   c".
Proof. reflexivity. Qed.

Example tokens_of_binding_line :
  Str.splitWhiteSpace "1    001e.0b41.7afd    DYNAMIC     Gi1/0/15"
  = ["1"; "001e.0b41.7afd"; "DYNAMIC"; "Gi1/0/15"].
Proof. reflexivity. Qed.

Example tokens_untrimmed : Str.splitWhiteSpace " a  b " = [""; "a"; "b"; ""].
Proof. reflexivity. Qed.

Example lines_of_text :
  Str.split "010" ("a" +:+ String "010" ("" +:+ String "010" "b")) = ["a"; ""; "b"].
Proof. reflexivity. Qed.

Example parseInt_leading_digits : parseInt "12abc" = Int 12.
Proof. reflexivity. Qed.

Example parseInt_signed : parseInt "-5" = Int (-5) /\ parseInt "+5" = Int 5.
Proof. split; reflexivity. Qed.

Example parseInt_no_digits : parseInt "Vlan" = NaN /\ parseInt "-" = NaN.
Proof. split; reflexivity. Qed.

Example toString_of_numbers :
  Number_toString (Int 5) = "5" /\ Number_toString (Int 0) = "0"
  /\ Number_toString (Int (-12)) = "-12".
Proof. repeat split. Qed.

Example match_single_quotes : mappingMatch "5 = 'Guest'" = Some ("5", "Guest").
Proof. reflexivity. Qed.

Example match_bare_name : mappingMatch "12=Guest WiFi" = Some ("12", "Guest WiFi").
Proof. reflexivity. Qed.

Example match_leading_zeros : mappingMatch "005 = Lab" = Some ("005", "Lab").
Proof. reflexivity. Qed.

Example match_inner_quote : mappingMatch "5 = 'Bob's'" = Some ("5", "Bob's").
Proof. reflexivity. Qed.

Example match_empty_name : mappingMatch "5 =" = Some ("5", "").
Proof. reflexivity. Qed.

Example no_match_binding_line :
  mappingMatch "1    001e.0b41.7afd    DYNAMIC     Gi1/0/15" = None.
Proof. reflexivity. Qed.

(** The dot of the pattern refuses a carriage return inside the name. *)
Example no_match_carriage_return :
  mappingMatch ("5 = a" +:+ String "013" "b") = None.
Proof. reflexivity. Qed.

Example leading_zeros_share_key :
  detectedMappings (parseFileContent ("05 = 'A'" +:+ String "010" "5 = 'B'"))
  = {[ "5" := "B" ]}.
Proof. reflexivity. Qed.

Example format_colon_form : formatMacAddress "00:1E:0B:41:7A:FD" = "00:1e:0b:41:7a:fd".
Proof. reflexivity. Qed.

Example format_hyphen_form : formatMacAddress "00-1e-0b-41-7a-fd" = "00:1e:0b:41:7a:fd".
Proof. reflexivity. Qed.

Example format_short : formatMacAddress "001e.0b41" = "001e0b41".
Proof. reflexivity. Qed.

(** Twelve characters are regrouped around a line terminator, which the dot
    steps over; a token of a line never holds one. *)
Example format_line_terminator :
  formatMacAddress ("ab" +:+ String "010" "cdefghijk") = "ab:cd:ef:gh:ij:k".
Proof. reflexivity. Qed.

Example parse_mixed_text :
  parseFileContent
    ("5 = 'Guest'" +:+ String "010"
     ("Vlan    Mac Address       Type        Ports" +:+ String "010"
      ("   5    000a.f70e.af2f    DYNAMIC     Gi1/0/11" +:+ String "010"
       ("   1    001e.0b41.7afd    DYNAMIC     Gi1/0/15" +:+ String "010"
        "Total Mac Addresses for this criterion: 2"))))
  = Parsed [ Client (Int 5) "000a.f70e.af2f" "Gi1/0/11";
             Client (Int 1) "001e.0b41.7afd" "Gi1/0/15" ]
           [1; 5]
           {[ "5" := "Guest" ]}.
Proof. reflexivity. Qed.

Example base64_round :
  Base64.btoa "1 001e.0b41.7afd DYNAMIC Gi1/0/15"
  = "MSAwMDFlLjBiNDEuN2FmZCBEWU5BTUlDIEdpMS8wLzE1"
  /\ Base64.atob "MSAwMDFlLjBiNDEuN2FmZCBEWU5BTUlDIEdpMS8wLzE1"
     = Some "1 001e.0b41.7afd DYNAMIC Gi1/0/15"
  /\ Base64.atob "aGVsbG8=" = Some "hello"
  /\ Base64.atob "a" = None /\ Base64.atob "a*b=" = None.
Proof. repeat split. Qed.

Example post_missing_content :
  POST (Body None (Some ∅)) = ErrorResponse "No file content provided" 400.
Proof. reflexivity. Qed.

Example post_bad_encoding :
  POST (Body (Some "%%%") (Some ∅)) = ErrorResponse "Invalid file content encoding" 400.
Proof. reflexivity. Qed.

Example post_missing_mappings :
  POST (Body (Some "MSAwMDFlLjBiNDEuN2FmZCBEWU5BTUlDIEdpMS8wLzE1") None)
  = ErrorResponse "Failed to parse file content" 400.
Proof. reflexivity. Qed.

(* ===================================================================== *)
(** * Part III. The claims                                                *)
(* ===================================================================== *)

(** C2.  The MAC normalizer lower-cases its input and removes every dot,
    colon and hyphen.  When twelve hexadecimal-looking characters remain, the
    result is those characters in six groups of two joined by colons; when
    the cleaned text is not twelve characters long, the result is the cleaned
    text itself.  Being a total function it has no failing input.  The two
    examples of the specification are the last two conjuncts. *)
Theorem C2_formatMacAddress_normalizes (m : string) :
  let cleaned := Str.removeSeparators (Str.toLowerCase m) in
  Str.any Chr.isSeparator cleaned = false
  /\ Str.any (Chr.between 65 90) cleaned = false
  /\ (String.length cleaned = 12%nat -> Str.all Chr.isHex cleaned = true ->
      formatMacAddress m = Str.join ":" (octets cleaned)
      /\ length (octets cleaned) = 6%nat
      /\ Forall (fun o => String.length o = 2%nat) (octets cleaned)
      /\ Str.join "" (octets cleaned) = cleaned)
  /\ (String.length cleaned <> 12%nat -> formatMacAddress m = cleaned)
  /\ formatMacAddress "001E.0B41.7AFD" = "00:1e:0b:41:7a:fd"
  /\ formatMacAddress "not-a-mac" = "notamac".
Proof.
  intros cleaned. repeat split.
  - unfold cleaned, Str.removeSeparators.
    pose proof (keep_sound (fun c => negb (Chr.isSeparator c)) (Str.toLowerCase m)) as K.
    erewrite <- K. clear. induction (Str.keep _ _) as [|c r IH]; simpl; [reflexivity|].
    now rewrite negb_involutive, IH.
  - unfold cleaned. apply any_keep. clear.
    induction m as [|c r IH]; simpl; [reflexivity|]. rewrite IH, orb_false_r.
    clear. each_char c.
  - apply formatMacAddress_twelve; [assumption|].
    eapply all_weaken; [apply hex_isDot | eassumption].
  - now apply octets_twelve.
  - now apply octets_twelve.
  - clear - H. do 12 (destruct cleaned as [|? cleaned]; [discriminate|]).
    now destruct cleaned.
  - apply formatMacAddress_other.
Qed.

(** C2 at the two texts of the specification. *)
Lemma C2_formatMacAddress_witness :
  formatMacAddress "001E.0B41.7AFD"
  = Str.join ":" (octets (Str.removeSeparators (Str.toLowerCase "001E.0B41.7AFD")))
  /\ formatMacAddress "not-a-mac" = Str.removeSeparators (Str.toLowerCase "not-a-mac").
Proof.
  split.
  - apply (proj1 (proj2 (proj2 (C2_formatMacAddress_normalizes "001E.0B41.7AFD")))
             eq_refl eq_refl).
  - apply (proj1 (proj2 (proj2 (proj2 (C2_formatMacAddress_normalizes "not-a-mac"))))).
    vm_compute. discriminate.
Defined.

(** ** What [parseInt] makes of a token, and the scan of a line *)

(** Of a token, which holds no white space, [parseInt] reads the sign and
    the digits after it, and gives [NaN] when there is no digit there. *)
Lemma parseInt_token t :
  Str.any Chr.isWhiteSpace t = false ->
  parseInt t = if startsNumber t then Int (runValue t) else NaN.
Proof.
  intros W. unfold parseInt. rewrite (trimStart_no_space _ W).
  unfold startsNumber, runValue, digitRun, unsigned, isNegative, isSign.
  destruct t as [|c r]; [reflexivity|]. cbn [firstIs].
  destruct (Str.isChar "-" c) eqn:M.
  - rewrite orb_true_r. now destruct (Str.isEmpty _).
  - destruct (Str.isChar "+" c); cbn [orb]; now destruct (Str.isEmpty _).
Qed.

Lemma all_takeWhile p s : Str.all p (Str.takeWhile p s) = true.
Proof.
  induction s as [|c r IH]; simpl; [reflexivity|].
  destruct (p c) eqn:E; simpl; [now rewrite E|reflexivity].
Qed.

Lemma digitsValue_shift d : forall acc,
  digitsValue acc d = acc * 10 ^ Z.of_nat (String.length d) + digitsValue 0 d.
Proof.
  induction d as [|c r IH]; intros acc.
  - cbn [digitsValue String.length]. change (10 ^ Z.of_nat 0) with 1. lia.
  - cbn [digitsValue String.length].
    rewrite (IH (10 * acc + digitValue c)), (IH (10 * 0 + digitValue c)).
    rewrite Nat2Z.inj_succ, Z.pow_succ_r by lia. lia.
Qed.

(** A run of [n] digits denotes an integer below [10 ^ n]. *)
Lemma digitsValue_bound d :
  Str.all Chr.isDigit d = true ->
  0 <= digitsValue 0 d < 10 ^ Z.of_nat (String.length d).
Proof.
  induction d as [|c r IH]; intros A.
  - cbn [digitsValue String.length]. change (10 ^ Z.of_nat 0) with 1. lia.
  - simpl in A. apply andb_prop in A as [Ac Ar]. specialize (IH Ar).
    pose proof (digitValue_range c Ac) as R.
    cbn [digitsValue String.length]. rewrite digitsValue_shift.
    rewrite Nat2Z.inj_succ, Z.pow_succ_r by lia. nia.
Qed.

Lemma digitsValue_fifteen d :
  Str.all Chr.isDigit d = true -> (String.length d <= 15)%nat ->
  0 <= digitsValue 0 d < 10 ^ 15.
Proof.
  intros A L. pose proof (digitsValue_bound d A) as B.
  assert (10 ^ Z.of_nat (String.length d) <= 10 ^ 15)
    by (apply Z.pow_le_mono_r; lia).
  lia.
Qed.

(** The sign and the size of the integer a token starts with. *)
Lemma runValue_range t :
  (String.length (digitRun t) <= 15)%nat ->
  - 10 ^ 15 < runValue t < 10 ^ 15
  /\ (isNegative t = false -> 0 <= runValue t)
  /\ (isNegative t = true -> runValue t <= 0).
Proof.
  intros L. pose proof (digitsValue_fifteen (digitRun t) (all_takeWhile _ _) L) as B.
  unfold runValue. destruct (isNegative t); repeat split; intros; try lia; discriminate.
Qed.

Lemma nth_no_space (tokens : list string) n :
  Forall (fun p => Str.any Chr.isWhiteSpace p = false) tokens ->
  Str.any Chr.isWhiteSpace (nth n tokens EmptyString) = false.
Proof.
  intros F. revert n. induction F as [|x l Hx _ IH]; intros [|n]; simpl; auto.
Qed.

Lemma token_no_space t n :
  Str.any Chr.isWhiteSpace (nth n (Str.splitWhiteSpace t) EmptyString) = false.
Proof. apply nth_no_space, splitRuns_no_space. Qed.

(** The kind of a line, with the test on the first token written out. *)
Lemma classify_explicit line :
  let tokens := Str.splitWhiteSpace (Str.trim line) in
  classify line
  = if Str.isEmpty (Str.trim line) then Blank
    else match mappingMatch (Str.trim line) with
         | Some (digits, name) => Declaration (Number_toString (parseInt digits)) name
         | None =>
             if (4 <=? length tokens)%nat && startsNumber (nth 0 tokens EmptyString)
             then Binding (Client (parseInt (nth 0 tokens EmptyString))
                                  (nth 1 tokens EmptyString) (nth 3 tokens EmptyString))
             else Noise
         end.
Proof.
  intros tokens. unfold classify.
  destruct (Str.isEmpty (Str.trim line)); [reflexivity|].
  destruct (mappingMatch (Str.trim line)) as [[digits name]|]; [reflexivity|].
  pose proof (token_no_space (Str.trim line) 0) as W. fold tokens in W |- *.
  destruct tokens as [|t0 [|t1 [|t2 [|t3 rest]]]]; try reflexivity.
  cbn [nth length] in *. change (4 <=? S (S (S (S (length rest)))))%nat with true.
  cbn [andb]. rewrite (parseInt_token t0 W). now destruct (startsNumber t0).
Qed.

Lemma emits_binding st line c : emits st line c <-> bindingOf line = Some c.
Proof.
  assert (S0 : forall c', seenClients st = seenClients st ++ [c'] -> False).
  { intros c' H. apply (f_equal (@length client)) in H.
    rewrite length_app in H. simpl in H. lia. }
  unfold emits, bindingOf. rewrite scanLine_classify.
  destruct (classify line) as [|k n|c'|]; simpl;
    try (split; [intros H; now apply S0 in H | discriminate]).
  split.
  - intros H. apply app_inv_head in H. now injection H as ->.
  - now intros [= ->].
Qed.

Lemma bindingOf_explicit line :
  let tokens := Str.splitWhiteSpace (Str.trim line) in
  bindingOf line
  = if negb (Str.isEmpty (Str.trim line)) && negb (isDeclaration line)
       && (4 <=? length tokens)%nat && startsNumber (nth 0 tokens EmptyString)
    then Some (Client (parseInt (nth 0 tokens EmptyString))
                      (nth 1 tokens EmptyString) (nth 3 tokens EmptyString))
    else None.
Proof.
  intros tokens. unfold bindingOf, isDeclaration. rewrite classify_explicit. fold tokens.
  destruct (Str.isEmpty (Str.trim line)); [reflexivity|].
  destruct (mappingMatch (Str.trim line)) as [[digits name]|]; [reflexivity|].
  cbn [negb andb]. now destruct (_ && _).
Qed.

(** A line that is neither a declaration nor a binding leaves the scan as it
    was. *)
Lemma scanLine_unbound st line :
  isDeclaration line = false -> bindingOf line = None -> scanLine st line = st.
Proof.
  unfold isDeclaration, bindingOf. rewrite scanLine_classify, classify_explicit.
  destruct (Str.isEmpty (Str.trim line)); [reflexivity|].
  destruct (mappingMatch (Str.trim line)) as [[digits name]|]; [discriminate|].
  now destruct (_ && _).
Qed.

(** C3, as the code has it.  A non-blank line that is no mapping declaration
    yields a record exactly when its white-space tokens are at least four and
    the first one starts as a number does: an optional sign, then a digit.
    What follows the leading digits is not looked at, so the first token
    need not be an integer from end to end, though every such integer is
    accepted.  The record holds what [parseInt] makes of the first token,
    which is never [NaN] and, for up to fifteen leading digits, the integer
    that the sign and those digits denote; the second token as it stands;
    and the fourth token (the third is not kept).  Otherwise the line
    changes nothing.  The line of the specification yields the record it
    names. *)
Theorem C3_binding_line (st : scan) (line : string) :
  Str.isEmpty (Str.trim line) = false ->
  mappingMatch (Str.trim line) = None ->
  let tokens := Str.splitWhiteSpace (Str.trim line) in
  let t0 := nth 0 tokens EmptyString in
  (forall c, emits st line c <->
             (4 <= length tokens)%nat
             /\ startsNumber t0 = true
             /\ c = Client (parseInt t0) (nth 1 tokens EmptyString)
                           (nth 3 tokens EmptyString))
  /\ (startsNumber t0 = true ->
      isNaN (parseInt t0) = false
      /\ ((String.length (digitRun t0) <= 15)%nat -> parseInt t0 = Int (runValue t0)))
  /\ (isInteger t0 = true -> startsNumber t0 = true)
  /\ ((forall c, ~ emits st line c) -> scanLine st line = st)
  /\ clients (parseFileContent "1    001e.0b41.7afd    DYNAMIC     Gi1/0/15")
     = [Client (Int 1) "001e.0b41.7afd" "Gi1/0/15"].
Proof.
  intros E M tokens t0.
  assert (D : isDeclaration line = false) by (unfold isDeclaration; now rewrite M).
  pose proof (bindingOf_explicit line) as B. cbv zeta in B.
  fold tokens in B. fold t0 in B. rewrite E, D in B. cbn [negb andb] in B.
  split; [|split; [|split; [|split; [|reflexivity]]]].
  - intros c. rewrite emits_binding, B.
    destruct (4 <=? length tokens)%nat eqn:L; cbn [andb].
    + apply Nat.leb_le in L. destruct (startsNumber t0).
      * split; [now intros [= <-] | now intros (_ & _ & ->)].
      * split; [discriminate | now intros (_ & ? & _)].
    + apply Nat.leb_gt in L. split; [discriminate | intros (? & _); lia].
  - intros S. pose proof (parseInt_token t0 (token_no_space _ 0)) as P.
    rewrite S in P. rewrite P. split; [reflexivity | intros _; reflexivity].
  - intros I. unfold isInteger in I. now apply andb_prop in I as [I _].
  - intros H. apply scanLine_unbound; [exact D|].
    destruct (bindingOf line) as [c|] eqn:Bc; [|reflexivity].
    destruct (H c). now apply emits_binding.
Qed.

(** C3 at the line of the specification, and at a line whose first token
    goes on after its digits. *)
Lemma C3_binding_line_witness :
  emits (Scan [] ∅ ∅) "1    001e.0b41.7afd    DYNAMIC     Gi1/0/15"
        (Client (Int 1) "001e.0b41.7afd" "Gi1/0/15")
  /\ emits (Scan [] ∅ ∅) "12abc aaaa.bbbb.cccc DYNAMIC Gi1/0/1"
           (Client (Int 12) "aaaa.bbbb.cccc" "Gi1/0/1").
Proof.
  split.
  - apply (proj1 (C3_binding_line (Scan [] ∅ ∅)
                    "1    001e.0b41.7afd    DYNAMIC     Gi1/0/15" eq_refl eq_refl)).
    split; [vm_compute; lia | split; reflexivity].
  - apply (proj1 (C3_binding_line (Scan [] ∅ ∅)
                    "12abc aaaa.bbbb.cccc DYNAMIC Gi1/0/1" eq_refl eq_refl)).
    split; [vm_compute; lia | split; reflexivity].
Defined.

(** C3, as stated, fails: the first token of each of these lines is no
    base-10 integer, yet the line yields a record, whose VLAN id is what the
    leading digits of the token denote. *)
Lemma C3_counterexample_trailing_text :
  isInteger "12abc" = false
  /\ mappingMatch (Str.trim "12abc aaaa.bbbb.cccc DYNAMIC Gi1/0/1") = None
  /\ clients (parseFileContent "12abc aaaa.bbbb.cccc DYNAMIC Gi1/0/1")
     = [Client (Int 12) "aaaa.bbbb.cccc" "Gi1/0/1"]
  /\ isInteger "2024-01-05" = false
  /\ mappingMatch (Str.trim "2024-01-05 10:22:01 Interface Gi1/0/1 changed") = None
  /\ clients (parseFileContent "2024-01-05 10:22:01 Interface Gi1/0/1 changed")
     = [Client (Int 2024) "10:22:01" "Gi1/0/1"].
Proof. repeat split. Qed.

(** C4, as the code has it.  A line the mapping pattern matches yields no
    record; it stores the captured segment name under one key of the
    detected mappings, the key it declares.  For up to fifteen digits the
    parsed VLAN id is the integer the digits denote, which is not negative,
    and the key is its decimal text, which reads back as it; the entry then
    survives every later line that does not declare that VLAN id, so of
    several declarations for one id the last one stands.  The
    pattern is the one described, with a name that holds no line terminator:
    a matched line is digits, white space, the equals sign, white space, at
    most one quote, such a name, at most one quote; and every line of that
    shape with the name between two copies of one optional quote is matched,
    its groups being the digits and the name without the quotes.  The line
    of the specification maps the key 5 to Guest. *)
Theorem C4_mapping_declaration :
  (forall (st : scan) (line digits name : string),
      mappingMatch (Str.trim line) = Some (digits, name) ->
      (digits <> EmptyString /\ Str.all Chr.isDigit digits = true)
      /\ (exists key : string,
             declarationOf line = Some (key, name)
             /\ scanLine st line
                = Scan (seenClients st) (seenVlans st)
                       (<[key := name]> (seenMappings st)))
      /\ (forall c, ~ emits st line c)
      /\ ((String.length digits <= 15)%nat ->
          exists v, 0 <= v < 10 ^ 15
            /\ v = digitsValue 0 digits
            /\ parseInt digits = Int v
            /\ parseInt (Number_toString (Int v)) = Int v
            /\ scanLine st line
               = Scan (seenClients st) (seenVlans st)
                      (<[Number_toString (Int v) := name]> (seenMappings st))
            /\ (forall before after : list string,
                   Forall (fun l => declaredVlan l <> Some (Int v)) after ->
                   seenMappings (scanLines (before ++ line :: after))
                     !! Number_toString (Int v) = Some name)))
  /\ (forall t digits name : string,
         mappingMatch t = Some (digits, name) -> matchedShape t digits name)
  /\ (forall digits ws1 ws2 quote name : string,
         declarationShape digits ws1 ws2 quote name = true ->
         mappingMatch (declarationLine digits ws1 ws2 quote name) = Some (digits, name))
  /\ detectedMappings (parseFileContent "5 = 'Guest'") !! "5" = Some "Guest".
Proof.
  split; [|split; [exact mappingMatch_sound
                  |split; [exact mappingMatch_shape | reflexivity]]].
  intros st line digits name M.
  destruct (mappingMatch_digits _ _ _ M) as [Hne Hd].
  destruct (parseInt_digits digits Hne Hd) as [P V].
  assert (E : Str.isEmpty (Str.trim line) = false)
    by (destruct (Str.trim line); [discriminate M | reflexivity]).
  assert (S1 : forall st', scanLine st' line
                 = Scan (seenClients st') (seenVlans st')
                        (<[Number_toString (parseInt digits) := name]>
                           (seenMappings st')))
    by (intros st'; unfold scanLine; now rewrite E, M).
  split; [now split|]. split; [|split].
  - exists (Number_toString (parseInt digits)). split; [|apply S1].
    unfold declarationOf. rewrite classify_explicit. now rewrite E, M.
  - intros c. unfold emits. rewrite S1. simpl. intros H.
    apply (f_equal (@length client)) in H. rewrite length_app in H. simpl in H. lia.
  - intros L. exists (digitsValue 0 digits).
    split; [now apply digitsValue_fifteen|]. split; [reflexivity|].
    split; [exact P|]. split; [apply parseInt_toString|]. rewrite <- P. split.
    + apply S1.
    + intros before after H. unfold scanLines. rewrite fold_left_app. simpl.
      rewrite scan_other_key.
      * rewrite S1. simpl. apply lookup_insert_eq.
      * eapply Forall_impl; [exact H|]. intros l. rewrite P.
        apply declaredVlan_other_key.
Qed.

(** C4 at the line of the specification. *)
Lemma C4_mapping_declaration_witness :
  exists v, 0 <= v < 10 ^ 15
    /\ v = digitsValue 0 "5"
    /\ parseInt "5" = Int v
    /\ parseInt (Number_toString (Int v)) = Int v
    /\ scanLine (Scan [] ∅ ∅) "5 = 'Guest'"
       = Scan [] ∅ (<[Number_toString (Int v) := "Guest"]> ∅)
    /\ (forall before after : list string,
           Forall (fun l => declaredVlan l <> Some (Int v)) after ->
           seenMappings (scanLines (before ++ "5 = 'Guest'" :: after))
             !! Number_toString (Int v) = Some "Guest").
Proof.
  apply (proj1 C4_mapping_declaration (Scan [] ∅ ∅) "5 = 'Guest'" "5" "Guest" eq_refl).
  simpl. lia.
Defined.

(** C4, as stated, fails: this line is digits, a space, the equals sign, a
    space and a name, yet a carriage return inside the name keeps the
    pattern from matching; nothing is stored for VLAN 5, and the line is
    read as a binding line instead. *)
Lemma C4_counterexample_carriage_return :
  describedDeclaration (Str.trim ("5 = a" +:+ String "013" "b")) = true
  /\ mappingMatch (Str.trim ("5 = a" +:+ String "013" "b")) = None
  /\ detectedMappings (parseFileContent ("5 = a" +:+ String "013" "b")) = ∅
  /\ clients (parseFileContent ("5 = a" +:+ String "013" "b"))
     = [Client (Int 5) "=" "b"].
Proof. repeat split. Qed.

(** C5.  The CSV that [generateCsv] renders is the header line and, for
    every record, the comma-joined row of eleven fields: the formatted MAC
    address; the segment, which is the entry of the mapping table under the
    record's VLAN id and empty when the table has none; four empty fields;
    Allow; and the four trailing fields empty, No, empty, No.  Read off the
    rendered text, line [i + 1] splits into these eleven fields for record
    [i], which takes that no rendered field holds a newline and that the MAC
    address and the segment of the record hold no comma.  The renderer takes
    no column switch: the trailing fields are there for every record. *)
Theorem C5_row_fields (cs : list client) (m : gmap string string) :
  generateCsv cs m
  = Str.join (String "010" EmptyString)
      (Str.join "," headers
       :: map (fun c => Str.join ","
                 [ formatMacAddress (mac c);
                   default EmptyString (m !! Number_toString (vlan c));
                   ""; ""; ""; ""; "Allow"; ""; "No"; ""; "No" ]) cs)
  /\ (forall (i : nat) (c : client),
         cs !! i = Some c ->
         Forall (fun c' => newlineFree m c' = true) cs ->
         commaFree m c = true ->
         exists line seg : string,
           csvLines (generateCsv cs m) !! S i = Some line
           /\ csvFields line
              = [ formatMacAddress (mac c); seg; ""; ""; ""; ""; "Allow"; "";
                  "No"; ""; "No" ]
           /\ (forall s, m !! Number_toString (vlan c) = Some s -> seg = s)
           /\ (m !! Number_toString (vlan c) = None -> seg = EmptyString)).
Proof.
  split; [reflexivity|].
  intros i c Hi F C. exists (rowOf m c), (segmentOf m (vlan c)).
  split; [|split; [|split]].
  - rewrite (csvLines_generateCsv cs m F).
    transitivity ((rowOf m <$> cs) !! i); [reflexivity|].
    now rewrite list_lookup_fmap, Hi.
  - now rewrite (csvFields_rowOf m c C).
  - intros s H. unfold segmentOf. now rewrite H.
  - intros H. unfold segmentOf. now rewrite H.
Qed.

(** C5 at two records, of which the second has a segment declared. *)
Lemma C5_row_fields_witness :
  exists line seg : string,
    csvLines (generateCsv [ Client (Int 1) "001e.0b41.7afd" "Gi1/0/15";
                            Client (Int 5) "000a.f70e.af2f" "Gi1/0/11" ]
                          {[ "5" := "Guest" ]}) !! 2%nat = Some line
    /\ csvFields line
       = [ formatMacAddress "000a.f70e.af2f"; seg; "";
           ""; ""; ""; "Allow"; ""; "No"; ""; "No" ]
    /\ (forall s, ({[ "5" := "Guest" ]} : gmap string string) !! Number_toString (Int 5)
                  = Some s -> seg = s)
    /\ (({[ "5" := "Guest" ]} : gmap string string) !! Number_toString (Int 5) = None ->
        seg = EmptyString).
Proof.
  apply (proj2 (C5_row_fields [ Client (Int 1) "001e.0b41.7afd" "Gi1/0/15";
                                Client (Int 5) "000a.f70e.af2f" "Gi1/0/11" ]
                              {[ "5" := "Guest" ]}) 1%nat
               (Client (Int 5) "000a.f70e.af2f" "Gi1/0/11")).
  - reflexivity.
  - repeat constructor.
  - reflexivity.
Defined.

Lemma join_last p sep l :
  l <> [] ->
  Forall (fun x => x <> EmptyString /\ lastIs p x = false) l ->
  Str.join sep l <> EmptyString /\ lastIs p (Str.join sep l) = false.
Proof.
  intros Hne H. induction H as [|x l [Hx Lx] Hl IH]; [congruence|].
  rewrite join_cons. destruct l as [|y l]; [auto|].
  destruct IH as [J1 J2]; [discriminate|].
  assert (T : sep +:+ Str.join sep (y :: l) <> EmptyString).
  { destruct sep; [exact J1 | discriminate]. }
  split.
  - destruct x; [congruence | discriminate].
  - now rewrite !lastIs_append.
Qed.

Lemma rowOf_last m c :
  rowOf m c <> EmptyString /\ lastIs (Str.isChar "010") (rowOf m c) = false.
Proof.
  change (rowOf m c)
    with (formatMacAddress (mac c)
          +:+ String "," (segmentOf m (vlan c)) +:+ ",,,,,Allow,,No,,No").
  split.
  - destruct (formatMacAddress (mac c)); discriminate.
  - rewrite !lastIs_append by discriminate. reflexivity.
Qed.

(** C10.  The CSV text is the header line and one row per record joined by
    single newlines, with none at the end.  For no records it is the header
    line alone; and when no rendered field holds a newline it splits into the
    header line followed by the rows, one more line than there are records. *)
Theorem C10_csv_layout (cs : list client) (m : gmap string string) :
  generateCsv cs m
  = Str.join (String "010" EmptyString) (Str.join "," headers :: map (rowOf m) cs)
  /\ generateCsv [] m = Str.join "," headers
  /\ lastIs (Str.isChar "010") (generateCsv cs m) = false
  /\ (Forall (fun c => newlineFree m c = true) cs ->
      csvLines (generateCsv cs m) = Str.join "," headers :: map (rowOf m) cs
      /\ length (csvLines (generateCsv cs m)) = S (length cs)).
Proof.
  split; [reflexivity|]. split; [reflexivity|]. split.
  - apply join_last; [discriminate|].
    constructor; [split; [discriminate | reflexivity]|].
    apply Forall_map, Forall_forall. intros c _. apply rowOf_last.
  - intros H. rewrite (csvLines_generateCsv _ _ H). split; [reflexivity|].
    simpl. now rewrite length_map.
Qed.

(** C10 at two records and no mappings. *)
Lemma C10_csv_layout_witness :
  csvLines (generateCsv [Client (Int 1) "001e.0b41.7afd" "Gi1/0/15";
                         Client (Int 5) "000a.f70e.af2f" "Gi1/0/11"] ∅)
  = [ Str.join "," headers;
      "00:1e:0b:41:7a:fd,,,,,,Allow,,No,,No";
      "00:0a:f7:0e:af:2f,,,,,,Allow,,No,,No" ].
Proof.
  refine (proj1 (proj2 (proj2 (proj2 (C10_csv_layout _ ∅))) _)).
  repeat constructor.
Defined.

(** C1, as the code has it.  The renderer takes no column switch: the header
    line is always the seven base columns followed by the four IP columns,
    eleven names; and when no rendered MAC address or segment holds a comma or
    a newline, the lines of the CSV are the header line and the rows, each of
    eleven comma-separated fields. *)
Theorem C1_eleven_columns (cs : list client) (m : gmap string string) :
  head (csvLines (generateCsv cs m)) = Some (Str.join "," (baseHeaders ++ ipHeaders))
  /\ csvFields (Str.join "," (baseHeaders ++ ipHeaders)) = baseHeaders ++ ipHeaders
  /\ length (baseHeaders ++ ipHeaders) = 11%nat
  /\ (Forall (fun c => newlineFree m c = true /\ commaFree m c = true) cs ->
      csvLines (generateCsv cs m)
      = Str.join "," (baseHeaders ++ ipHeaders) :: map (rowOf m) cs
      /\ Forall (fun line => length (csvFields line) = 11%nat)
                (csvLines (generateCsv cs m))).
Proof.
  split; [apply csvLines_head|]. split; [reflexivity|]. split; [reflexivity|].
  intros H.
  assert (L : csvLines (generateCsv cs m) = Str.join "," headers :: map (rowOf m) cs).
  { apply csvLines_generateCsv. eapply Forall_impl; [exact H|]. now intros c [? _]. }
  split; [exact L|]. rewrite L. constructor; [reflexivity|].
  apply Forall_map. eapply Forall_impl; [exact H|].
  intros c [_ C]. simpl. now rewrite (csvFields_rowOf _ _ C).
Qed.

(** C1 at one record and no mappings. *)
Lemma C1_eleven_columns_witness :
  csvLines (generateCsv [Client (Int 1) "001e.0b41.7afd" "Gi1/0/15"] ∅)
  = [ Str.join "," (baseHeaders ++ ipHeaders); "00:1e:0b:41:7a:fd,,,,,,Allow,,No,,No" ]
  /\ Forall (fun line => length (csvFields line) = 11%nat)
            (csvLines (generateCsv [Client (Int 1) "001e.0b41.7afd" "Gi1/0/15"] ∅)).
Proof.
  refine (proj2 (proj2 (proj2 (C1_eleven_columns _ ∅))) _).
  repeat constructor.
Defined.

(** C1, as stated, fails: rendering one record gives a header line of eleven
    fields, not the seven base columns, and a row of eleven fields; nothing
    passed to the renderer selects seven columns. *)
Lemma C1_counterexample_eleven_columns :
  map (fun line => length (csvFields line))
      (csvLines (generateCsv [Client (Int 1) "001e.0b41.7afd" "Gi1/0/15"] ∅))
  = [11; 11]%nat
  /\ head (csvLines (generateCsv [Client (Int 1) "001e.0b41.7afd" "Gi1/0/15"] ∅))
     <> Some (Str.join "," baseHeaders).
Proof. split; [reflexivity | discriminate]. Qed.

(** C8.  The records are the bindings of the input lines, taken in the order
    of the lines, whatever their VLAN ids; the CSV is the header line and the
    rows of the records in that order, joined by newlines; and when no
    segment name of the mapping table holds a newline, the lines of the CSV
    after the header are those rows: line [i + 1] is the row of record [i]. *)
Theorem C8_order_preserved (content : string) (m : gmap string string) :
  let cs := clients (parseFileContent content) in
  cs = omap bindingOf (Str.split "010" (Str.trim content))
  /\ generateCsv cs m
     = Str.join (String "010" EmptyString) (Str.join "," headers :: map (rowOf m) cs)
  /\ (map_Forall (fun _ seg => hasNewline seg = false) m ->
      csvLines (generateCsv cs m) = Str.join "," headers :: map (rowOf m) cs
      /\ forall (i : nat) (c : client),
           cs !! i = Some c -> csvLines (generateCsv cs m) !! S i = Some (rowOf m c)).
Proof.
  intros cs. split; [apply parse_clients|]. split; [reflexivity|]. intros Hm.
  assert (L : csvLines (generateCsv cs m) = Str.join "," headers :: map (rowOf m) cs)
    by (apply csvLines_generateCsv, parse_newlineFree, Hm).
  split; [exact L|]. intros i c Hc. rewrite L. simpl.
  now rewrite list_lookup_fmap, Hc.
Qed.

(** C8 at two binding lines, VLAN 5 before VLAN 1. *)
Lemma C8_order_preserved_witness :
  csvLines (generateCsv
              (clients (parseFileContent
                 ("5    000a.f70e.af2f    DYNAMIC     Gi1/0/11" +:+ String "010"
                  "1    001e.0b41.7afd    DYNAMIC     Gi1/0/15")))
              {[ "5" := "Guest" ]})
  = [ Str.join "," headers;
      "00:0a:f7:0e:af:2f,Guest,,,,,Allow,,No,,No";
      "00:1e:0b:41:7a:fd,,,,,,Allow,,No,,No" ].
Proof.
  refine (proj1 (proj2 (proj2 (C8_order_preserved _ {[ "5" := "Guest" ]})) _)).
  apply map_Forall_singleton. reflexivity.
Defined.

(** ** The request *)


Lemma finalMappings_empty (detected : gmap string string) :
  finalMappings ∅ detected = detected.
Proof. reflexivity. Qed.

Lemma POST_decoded content64 decoded (supplied : option (gmap string string)) :
  Str.isEmpty content64 = false -> Base64.atob content64 = Some decoded ->
  POST (Body (Some content64) supplied)
  = let r := parseFileContent decoded in
    if (length (clients r) =? 0)%nat then
      ErrorResponse "No valid MAC address entries found in the file" 400
    else
      match supplied with
      | None => ErrorResponse "Failed to parse file content" 400
      | Some supplied =>
          CsvResponse
            (Base64.btoa (generateCsv (clients r)
                            (finalMappings supplied (detectedMappings r))))
            (detectedMappings r)
      end.
Proof. intros E A. unfold POST. cbn [fileContent vlanMappings]. now rewrite E, A. Qed.

(** What a reply with a CSV tells about the request: its content decoded,
    the text held a record, and the mappings were present. *)
Lemma POST_success b csv64 det :
  POST b = CsvResponse csv64 det ->
  exists content64 decoded supplied,
    fileContent b = Some content64
    /\ Base64.atob content64 = Some decoded
    /\ vlanMappings b = Some supplied
    /\ clients (parseFileContent decoded) <> []
    /\ det = detectedMappings (parseFileContent decoded)
    /\ csv64 = Base64.btoa (generateCsv (clients (parseFileContent decoded))
                              (finalMappings supplied det)).
Proof.
  unfold POST. destruct b as [[content64|] supplied]; cbn [fileContent vlanMappings];
    [|discriminate].
  destruct (Str.isEmpty content64); [discriminate|].
  destruct (Base64.atob content64) as [decoded|] eqn:A; [|discriminate].
  destruct (length (clients (parseFileContent decoded)) =? 0)%nat eqn:L; [discriminate|].
  destruct supplied as [supplied|]; [|discriminate].
  intros [= <- <-]. apply Nat.eqb_neq in L.
  exists content64, decoded, supplied.
  split; [reflexivity|]. split; [exact A|]. split; [reflexivity|].
  split; [intros E; now rewrite E in L|]. split; reflexivity.
Qed.



Lemma omap_none {A B} (f : A -> option B) (l : list A) :
  Forall (fun x => f x = None) l -> omap f l = [].
Proof. induction 1 as [|x l Hx _ IH]; simpl; [reflexivity|]. now rewrite Hx. Qed.

(** ** The lines the scan passes over *)

Lemma dropWhile_append p d rest :
  Str.all p d = true -> firstIs p rest = false -> dropWhile p (d +:+ rest) = rest.
Proof.
  intros A F. induction d as [|c r IH].
  - destruct rest as [|a rest]; [reflexivity|]. simpl in F |- *. now rewrite F.
  - simpl in A. apply andb_prop in A as [Ac Ar]. simpl. rewrite Ac. now apply IH.
Qed.

Lemma firstIs_append_all p q d rest :
  Str.all p d = true -> (forall c, p c = true -> q c = false) ->
  firstIs q rest = false -> firstIs q (d +:+ rest) = false.
Proof.
  intros A H F. destruct d as [|c r]; [exact F|].
  simpl in A. apply andb_prop in A as [Ac _]. simpl. now apply H.
Qed.

(** What the mapping pattern matches is of the format described. *)
Lemma matched_described t digits name :
  mappingMatch t = Some (digits, name) -> describedDeclaration t = true.
Proof.
  intros M. apply mappingMatch_sound in M
    as (ws1 & ws2 & q1 & q2 & -> & Hne & Hd & Hw1 & _).
  unfold describedDeclaration. apply andb_true_intro. split.
  - destruct digits as [|c r]; [congruence|].
    simpl in Hd. apply andb_prop in Hd as [Hc _]. exact Hc.
  - rewrite (dropWhile_append _ digits _ Hd).
    + now rewrite (dropWhile_append _ ws1 _ Hw1).
    + apply (firstIs_append_all Chr.isWhiteSpace);
        [exact Hw1 | exact whiteSpace_not_digit | reflexivity].
Qed.

Lemma skipped_classify l :
  skipped l = true -> classify l = Blank \/ classify l = Noise.
Proof.
  unfold skipped, isDeclaration. rewrite classify_explicit.
  destruct (Str.isEmpty (Str.trim l)); [now left|].
  destruct (mappingMatch (Str.trim l)) as [[digits name]|]; [discriminate|].
  cbn [negb orb andb]. rewrite Nat.ltb_antisym.
  destruct (4 <=? _)%nat; cbn [negb orb andb]; [|now right].
  destruct (startsNumber _); [discriminate | now right].
Qed.

(** A line is passed over, or declares a mapping, or yields a record. *)
Lemma line_kinds l :
  bindingOf l = None <-> skipped l = true \/ isDeclaration l = true.
Proof.
  rewrite bindingOf_explicit. unfold skipped.
  destruct (Str.isEmpty (Str.trim l)); [cbn; tauto|].
  destruct (isDeclaration l); [cbn; tauto|].
  cbn [negb orb andb]. rewrite Nat.ltb_antisym.
  destruct (4 <=? _)%nat; cbn [negb orb andb]; [|tauto].
  destruct (startsNumber _); cbn; split; try tauto; try discriminate.
  intros [?|?]; discriminate.
Qed.

(** A malformed line is passed over unless it has four tokens of which the
    first starts as a number does; then it yields a record all the same. *)
Lemma malformed_line l :
  malformed l = true ->
  skipped l = true
  \/ exists c, bindingOf l = Some c
               /\ isInteger (nth 0 (Str.splitWhiteSpace (Str.trim l)) EmptyString) = false.
Proof.
  unfold malformed, describedBinding. intros H.
  apply andb_prop in H as [H B]. apply andb_prop in H as [E D].
  apply negb_true_iff in E, D, B.
  assert (N : isDeclaration l = false).
  { unfold isDeclaration. destruct (mappingMatch (Str.trim l)) as [[d n]|] eqn:M;
      [|reflexivity]. now rewrite (matched_described _ _ _ M) in D. }
  rewrite bindingOf_explicit. unfold skipped. rewrite E, N. cbn [negb orb andb].
  rewrite Nat.ltb_antisym.
  destruct (4 <=? _)%nat; cbn [negb orb andb] in *; [|now left].
  destruct (startsNumber _); cbn [negb]; [right; eauto | now left].
Qed.

(** C6, as the code has it.  A text all of whose lines are passed over or
    declare a mapping yields no records; a request whose content decodes to
    such a text is answered with the error of status 400 that says no valid
    entries were found, whatever mappings it supplies.  The lines passed
    over are the blank ones and those that the mapping pattern does not
    match and that have fewer than four tokens or a first token that does
    not start as a number does: such a line in the middle of the input
    changes neither the records nor the mappings gathered from the other
    lines, and every other line declares a mapping or yields a record.  A
    malformed line, one that is of neither format of the specification, is
    passed over unless it has four tokens of which the first starts with
    digits; then it yields a record. *)
Theorem C6_no_records :
  (forall decoded : string,
      Forall (fun l => skipped l = true \/ isDeclaration l = true)
             (Str.split "010" (Str.trim decoded)) ->
      clients (parseFileContent decoded) = [])
  /\ (forall (content64 decoded : string) (supplied : option (gmap string string)),
         Str.isEmpty content64 = false ->
         Base64.atob content64 = Some decoded ->
         Forall (fun l => skipped l = true \/ isDeclaration l = true)
                (Str.split "010" (Str.trim decoded)) ->
         POST (Body (Some content64) supplied)
         = ErrorResponse "No valid MAC address entries found in the file" 400)
  /\ (forall (before after : list string) (l : string),
         skipped l = true ->
         scanLines (before ++ l :: after) = scanLines (before ++ after))
  /\ (forall l : string,
         skipped l = false ->
         isDeclaration l = true \/ exists c, bindingOf l = Some c)
  /\ (forall l : string,
         malformed l = true ->
         skipped l = true
         \/ exists c, bindingOf l = Some c
                      /\ isInteger (nth 0 (Str.splitWhiteSpace (Str.trim l)) EmptyString)
                         = false).
Proof.
  assert (H1 : forall decoded : string,
             Forall (fun l => skipped l = true \/ isDeclaration l = true)
                    (Str.split "010" (Str.trim decoded)) ->
             clients (parseFileContent decoded) = []).
  { intros decoded H. rewrite parse_clients. apply omap_none.
    eapply Forall_impl; [exact H|]. intros l. apply line_kinds. }
  split; [exact H1|]. split; [|split; [|split; [|exact malformed_line]]].
  - intros content64 decoded supplied E A H.
    rewrite (POST_decoded _ _ _ E A). cbv zeta. now rewrite (H1 _ H).
  - intros before after l H. now apply scanLines_skip, skipped_classify.
  - intros l S. destruct (bindingOf l) as [c|] eqn:B; [right; eauto|].
    apply line_kinds in B as [B|B]; [congruence | now left].
Qed.

(** C6 at a text of two noise lines. *)
Lemma C6_no_records_witness :
  POST (Body (Some (Base64.btoa ("show mac address-table" +:+ String "010" "Total: 0")))
             (Some ∅))
  = ErrorResponse "No valid MAC address entries found in the file" 400.
Proof.
  apply (proj1 (proj2 C6_no_records)
           (Base64.btoa ("show mac address-table" +:+ String "010" "Total: 0"))
           ("show mac address-table" +:+ String "010" "Total: 0") (Some ∅)
           eq_refl eq_refl).
  repeat constructor.
Defined.

(** C6, as stated, fails: this line is malformed, its first token being no
    integer, yet it is not left out of the records. *)
Lemma C6_counterexample_malformed_line :
  malformed "12abc aaaa.bbbb.cccc DYNAMIC Gi1/0/1" = true
  /\ skipped "12abc aaaa.bbbb.cccc DYNAMIC Gi1/0/1" = false
  /\ clients (parseFileContent "12abc aaaa.bbbb.cccc DYNAMIC Gi1/0/1")
     = [Client (Int 12) "aaaa.bbbb.cccc" "Gi1/0/1"]
  /\ malformed "2024-01-05 10:22:01 Interface Gi1/0/1 changed" = true
  /\ clients (parseFileContent
                ("show mac address-table" +:+ String "010"
                 "2024-01-05 10:22:01 Interface Gi1/0/1 changed"))
     = [Client (Int 2024) "10:22:01" "Gi1/0/1"].
Proof. repeat split. Qed.

(** C7, as the code has it.  The VLAN id of every record is what [parseInt]
    makes of the first token of the record's line, a token that starts with
    an optional sign and a digit; it is never [NaN].  For up to fifteen
    leading digits it is the integer that the sign and those digits denote:
    not negative when the token does not start with a minus sign, and not
    positive when it does. *)
Theorem C7_vlan_integer (content : string) (c : client) :
  c ∈ clients (parseFileContent content) ->
  exists (line t0 : string),
    line ∈ Str.split "010" (Str.trim content)
    /\ head (Str.splitWhiteSpace (Str.trim line)) = Some t0
    /\ startsNumber t0 = true
    /\ vlan c = parseInt t0
    /\ isNaN (vlan c) = false
    /\ ((String.length (digitRun t0) <= 15)%nat ->
        exists v : Z,
          vlan c = Int v
          /\ v = runValue t0
          /\ - 10 ^ 15 < v < 10 ^ 15
          /\ (isNegative t0 = false -> 0 <= v)
          /\ (isNegative t0 = true -> v <= 0)).
Proof.
  rewrite parse_clients. intros H.
  apply list_elem_of_omap in H as (line & Hl & Hb).
  rewrite bindingOf_explicit in Hb.
  pose proof (token_no_space (Str.trim line) 0) as W.
  destruct (negb (Str.isEmpty (Str.trim line)) && negb (isDeclaration line)); [|discriminate].
  cbn [andb] in Hb.
  destruct (4 <=? length (Str.splitWhiteSpace (Str.trim line)))%nat eqn:L; [|discriminate].
  apply Nat.leb_le in L. cbn [andb] in Hb.
  destruct (Str.splitWhiteSpace (Str.trim line)) as [|t0 rest] eqn:T; [simpl in L; lia|].
  cbn [nth] in Hb, W.
  destruct (startsNumber t0) eqn:S; [|discriminate]. injection Hb as <-.
  pose proof (parseInt_token t0 W) as P. rewrite S in P.
  exists line, t0. split; [exact Hl|]. split; [now rewrite T|]. split; [exact S|].
  cbn [vlan]. split; [reflexivity|]. rewrite P. split; [reflexivity|].
  intros R. exists (runValue t0). split; [reflexivity|]. split; [reflexivity|].
  apply runValue_range, R.
Qed.

(** C7 at a line whose first token is negative. *)
Lemma C7_vlan_integer_witness :
  exists (line t0 : string),
    line ∈ Str.split "010" (Str.trim "-5 aaaa.bbbb.cccc DYNAMIC Gi1/0/1")
    /\ head (Str.splitWhiteSpace (Str.trim line)) = Some t0
    /\ startsNumber t0 = true
    /\ vlan (Client (Int (-5)) "aaaa.bbbb.cccc" "Gi1/0/1") = parseInt t0
    /\ isNaN (vlan (Client (Int (-5)) "aaaa.bbbb.cccc" "Gi1/0/1")) = false
    /\ ((String.length (digitRun t0) <= 15)%nat ->
        exists v : Z,
          vlan (Client (Int (-5)) "aaaa.bbbb.cccc" "Gi1/0/1") = Int v
          /\ v = runValue t0
          /\ - 10 ^ 15 < v < 10 ^ 15
          /\ (isNegative t0 = false -> 0 <= v)
          /\ (isNegative t0 = true -> v <= 0)).
Proof.
  apply (C7_vlan_integer "-5 aaaa.bbbb.cccc DYNAMIC Gi1/0/1"
           (Client (Int (-5)) "aaaa.bbbb.cccc" "Gi1/0/1")).
  vm_compute. constructor.
Defined.

(** C7, as stated, fails: a line whose first token is a negative number is a
    binding line, and its record carries the negative VLAN id. *)
Lemma C7_counterexample_negative_vlan :
  clients (parseFileContent "-5 aaaa.bbbb.cccc DYNAMIC Gi1/0/1")
  = [Client (Int (-5)) "aaaa.bbbb.cccc" "Gi1/0/1"]
  /\ -5 < 0.
Proof. split; reflexivity. Qed.

(* ===================================================================== *)
(** * Part IV. Further properties of the route and the page               *)
(* ===================================================================== *)

(** ** Base64: decoding undoes encoding *)

Lemma below_all (n : nat) (P : N -> bool) :
  forallb P (map N.of_nat (seq 0 n)) = true -> forall x, (x < N.of_nat n)%N -> P x = true.
Proof.
  intros H x Hx. rewrite forallb_forall in H. apply H.
  apply in_map_iff. exists (N.to_nat x). split; [lia|]. apply in_seq. lia.
Qed.

Lemma sextet_letter n : (n < 64)%N -> Base64.sextet (Base64.letter n) = Some n.
Proof.
  intros H.
  pose proof (below_all 64 (fun n => match Base64.sextet (Base64.letter n) with
                                     | Some m => N.eqb m n | None => false end)) as B.
  specialize (B eq_refl n H). simpl in B.
  destruct (Base64.sextet (Base64.letter n)); [|discriminate].
  apply N.eqb_eq in B. now subst.
Qed.

Lemma letter_plain n :
  (n < 64)%N ->
  Base64.isAsciiWhiteSpace (Base64.letter n) = false
  /\ Str.isChar "=" (Base64.letter n) = false.
Proof.
  intros H.
  pose proof (below_all 64 (fun n => negb (Base64.isAsciiWhiteSpace (Base64.letter n))
                                     && negb (Str.isChar "=" (Base64.letter n)))) as B.
  specialize (B eq_refl n H). simpl in B.
  apply andb_prop in B as [B1 B2]. apply negb_true_iff in B1, B2. auto.
Qed.

#[local] Ltac Zify.zify_post_hook ::= Z.to_euclidean_division_equations.

Lemma list_ind3 {A} (P : list A -> Prop) :
  P [] -> (forall a, P [a]) -> (forall a b, P [a; b]) ->
  (forall a b c r, P r -> P (a :: b :: c :: r)) ->
  forall l, P l.
Proof.
  intros H0 H1 H2 H3. fix IH 1.
  intros [|a [|b [|c r]]]; [apply H0 | apply H1 | apply H2 | apply H3, IH].
Qed.

Lemma code_bound c : (Chr.code c < 256)%N.
Proof. apply N_ascii_bounded. Qed.

Lemma ascii_of_code c : ascii_of_N (Chr.code c) = c.
Proof. apply ascii_N_embedding. Qed.

Ltac same_byte w :=
  match goal with
  | |- ascii_of_N _ = ?a =>
      transitivity (ascii_of_N (Chr.code a));
      [f_equal; try unfold w; lia | apply ascii_of_code]
  end.

(** The encoding of a list of bytes is the letters of its sextets followed by
    the padding; the sextets decode to the bytes. *)
Lemma encode_shape l :
  exists ns pad k,
    list_ascii_of_string (Base64.encode l) = map Base64.letter ns ++ pad
    /\ Forall (fun n => (n < 64)%N) ns
    /\ Base64.decode ns = l
    /\ ((pad = [] /\ length ns = (0 + k * 4)%nat)
        \/ (pad = ["="%char] /\ length ns = (3 + k * 4)%nat)
        \/ (pad = ["="%char; "="%char] /\ length ns = (2 + k * 4)%nat)).
Proof.
  induction l as [|a|a b|a b c r IH] using list_ind3.
  - exists [], [], 0%nat. repeat split; auto.
  - pose proof (code_bound a).
    set (w := (Chr.code a * 16)%N).
    exists [(w / 64)%N; (w mod 64)%N], ["="%char; "="%char], 0%nat.
    split; [reflexivity|]. split; [repeat constructor; unfold w; lia|].
    split; [|auto]. simpl. f_equal. same_byte w.
  - pose proof (code_bound a). pose proof (code_bound b).
    set (w := ((Chr.code a * 256 + Chr.code b) * 4)%N).
    exists [(w / 4096)%N; (w / 64 mod 64)%N; (w mod 64)%N], ["="%char], 0%nat.
    split; [reflexivity|]. split; [repeat constructor; unfold w; lia|].
    split; [|auto]. simpl. f_equal; [|f_equal]; same_byte w.
  - destruct IH as (ns & pad & k & E & F & D & L).
    pose proof (code_bound a). pose proof (code_bound b). pose proof (code_bound c).
    set (w := (Chr.code a * 65536 + Chr.code b * 256 + Chr.code c)%N).
    exists ((w / 262144)%N :: (w / 4096 mod 64)%N :: (w / 64 mod 64)%N :: (w mod 64)%N :: ns),
           pad, (S k).
    split; [simpl; fold w; now rewrite E|].
    split; [repeat constructor; try (unfold w; lia); exact F|].
    split.
    + simpl. rewrite D. f_equal; [|f_equal; [|f_equal]]; same_byte w.
    + simpl length. destruct L as [[-> L]|[[-> L]|[-> L]]]; [left|right; left|right; right];
        (split; [reflexivity | lia]).
Qed.

Lemma filter_plain (l : list ascii) :
  Forall (fun c => Base64.isAsciiWhiteSpace c = false) l ->
  filter (fun c => negb (Base64.isAsciiWhiteSpace c)) l = l.
Proof.
  induction 1 as [|c l Hc _ IH]; [reflexivity|].
  rewrite filter_cons_True by (rewrite Hc; exact I). now rewrite IH.
Qed.

Lemma mapM_sextet ns :
  Forall (fun n => (n < 64)%N) ns -> mapM Base64.sextet (map Base64.letter ns) = Some ns.
Proof.
  induction 1 as [|n ns Hn _ IH]; [reflexivity|].
  simpl. rewrite (sextet_letter n Hn). simpl. rewrite IH. reflexivity.
Qed.

Lemma stripPadding_letters ns pad k :
  Forall (fun n => (n < 64)%N) ns ->
  (pad = [] /\ length ns = (0 + k * 4)%nat)
  \/ (pad = ["="%char] /\ length ns = (3 + k * 4)%nat)
  \/ (pad = ["="%char; "="%char] /\ length ns = (2 + k * 4)%nat) ->
  Base64.stripPadding (map Base64.letter ns ++ pad) = map Base64.letter ns
  /\ (length ns mod 4 =? 1)%nat = false.
Proof.
  intros F L. unfold Base64.stripPadding.
  destruct L as [[-> L]|[[-> L]|[-> L]]]; (split; [|now rewrite L, Nat.Div0.mod_add]).
  - rewrite app_nil_r, length_map, L, Nat.Div0.mod_add. simpl Nat.eqb. cbv iota.
    destruct (rev (map Base64.letter ns)) as [|c1 [|c2 r]] eqn:R; try reflexivity.
    assert (In c1 (map Base64.letter ns)) as I1
      by (apply in_rev; rewrite R; now left).
    apply in_map_iff in I1 as (n & <- & Hn).
    rewrite Forall_forall in F.
    destruct (letter_plain n) as [_ ->]; [|reflexivity].
    apply F. now apply list_elem_of_In.
  - rewrite length_app, length_map, L. simpl length.
    replace (3 + k * 4 + 1)%nat with (0 + (S k) * 4)%nat by lia.
    rewrite Nat.Div0.mod_add. simpl Nat.eqb. cbv iota.
    rewrite rev_app_distr. simpl rev at 1. simpl app.
    destruct ns as [|n ns' _] using rev_ind; [simpl in L; lia|].
    rewrite map_app, rev_app_distr. cbn [map rev app].
    change (Str.isChar "=" "=") with true. cbv iota.
    apply Forall_app in F as [_ F]. inversion F as [|? ? Hn _]; subst.
    destruct (letter_plain n Hn) as [_ ->].
    now rewrite rev_involutive.
  - rewrite length_app, length_map, L. simpl length.
    replace (2 + k * 4 + 2)%nat with (0 + (S k) * 4)%nat by lia.
    rewrite Nat.Div0.mod_add. simpl Nat.eqb. cbv iota.
    rewrite rev_app_distr. simpl rev at 1. simpl app.
    change (Str.isChar "=" "=") with true. cbv iota.
    now rewrite rev_involutive.
Qed.

Lemma atob_btoa s : Base64.atob (Base64.btoa s) = Some s.
Proof.
  unfold Base64.atob, Base64.btoa.
  destruct (encode_shape (list_ascii_of_string s)) as (ns & pad & k & E & F & D & L).
  rewrite E. rewrite filter_plain.
  - destruct (stripPadding_letters ns pad k F L) as [-> M].
    rewrite length_map, M, (mapM_sextet ns F). simpl.
    now rewrite D, string_of_list_ascii_of_string.
  - apply Forall_app. split.
    + apply Forall_map. eapply Forall_impl; [exact F|].
      intros n Hn. now destruct (letter_plain n Hn).
    + destruct L as [[-> _]|[[-> _]|[-> _]]]; repeat constructor.
Qed.

Lemma btoa_nonempty s : Str.isEmpty s = false -> Str.isEmpty (Base64.btoa s) = false.
Proof. now destruct s as [|a [|b [|c r]]]. Qed.

(** ** The lines of a text and of the trimmed text *)

Lemma split_cons sep s : exists h t, Str.split sep s = h :: t.
Proof.
  induction s as [|c r IH]; simpl; [eauto|].
  destruct (Str.isChar sep c); [eauto|]. destruct IH as (h & t & ->). eauto.
Qed.

Lemma split_step sep c r :
  Str.split sep (String c r)
  = if Str.isChar sep c then EmptyString :: Str.split sep r
    else match Str.split sep r with
         | h :: t => String c h :: t
         | [] => [String c EmptyString]
         end.
Proof. reflexivity. Qed.

Lemma trimEnd_snoc_space s c :
  Chr.isWhiteSpace c = true -> Str.trimEnd (s +:+ String c EmptyString) = Str.trimEnd s.
Proof.
  intros W. induction s as [|a s IH]; simpl; [now rewrite W|]. now rewrite IH.
Qed.

Lemma trim_snoc_space s c :
  Chr.isWhiteSpace c = true -> Str.trim (s +:+ String c EmptyString) = Str.trim s.
Proof.
  intros W. unfold Str.trim. induction s as [|a s IH]; simpl; [now rewrite W|].
  destruct (Chr.isWhiteSpace a) eqn:Wa; [exact IH|].
  change (String a (s +:+ String c EmptyString)) with (String a s +:+ String c EmptyString).
  now apply trimEnd_snoc_space.
Qed.

Lemma trim_cons_space s c :
  Chr.isWhiteSpace c = true -> Str.trim (String c s) = Str.trim s.
Proof. intros W. unfold Str.trim. simpl. now rewrite W. Qed.

Section Lines.
Context {S : Type} (f : S -> string -> S).
Hypothesis f_trim : forall st l1 l2, Str.trim l1 = Str.trim l2 -> f st l1 = f st l2.
Hypothesis f_blank : forall st, f st EmptyString = st.

Lemma fold_lines_trimStart s st :
  fold_left f (Str.split "010" (Str.trimStart s)) st = fold_left f (Str.split "010" s) st.
Proof.
  induction s as [|c r IH]; [reflexivity|].
  simpl Str.trimStart. destruct (Chr.isWhiteSpace c) eqn:W; [|reflexivity].
  rewrite IH, split_step. destruct (Str.isChar "010" c).
  - simpl. now rewrite f_blank.
  - destruct (split_cons "010" r) as (h & t & ->). simpl.
    f_equal. apply f_trim. now rewrite trim_cons_space.
Qed.

Lemma fold_lines_trimEnd s :
  exists h t h' t',
    Str.split "010" s = h :: t /\ Str.split "010" (Str.trimEnd s) = h' :: t'
    /\ (forall p, Str.trim (p +:+ h') = Str.trim (p +:+ h))
    /\ (forall st, fold_left f t' st = fold_left f t st).
Proof.
  induction s as [|c r (h & t & h' & t' & E & E' & Hh & Ht)].
  - exists EmptyString, [], EmptyString, []. auto.
  - simpl Str.trimEnd. rewrite split_step, E.
    destruct (Chr.isWhiteSpace c && Str.isEmpty (Str.trimEnd r)) eqn:B.
    + apply andb_prop in B as [W Z]. destruct (Str.trimEnd r); [|discriminate].
      simpl in E'. injection E' as <- <-.
      assert (Hb : forall st, f st h = st).
      { intros st. rewrite <- (f_blank st) at 2. apply f_trim. symmetry. apply (Hh EmptyString). }
      destruct (Str.isChar "010" c).
      * exists EmptyString, (h :: t), EmptyString, []. repeat split; auto.
        intros st. simpl. now rewrite Hb, <- Ht.
      * exists (String c h), t, EmptyString, []. repeat split; auto.
        intros p. rewrite append_empty_r.
        change (p +:+ String c h) with (p +:+ String c EmptyString +:+ h).
        rewrite <- append_assoc, <- Hh, append_empty_r. symmetry.
        now apply trim_snoc_space.
    + rewrite split_step, E'. destruct (Str.isChar "010" c).
      * exists EmptyString, (h :: t), EmptyString, (h' :: t'). repeat split; auto.
        intros st. simpl. rewrite Ht. f_equal. apply f_trim. apply (Hh EmptyString).
      * exists (String c h), t, (String c h'), t'. repeat split; auto.
        intros p.
        change (p +:+ String c h') with (p +:+ String c EmptyString +:+ h').
        change (p +:+ String c h) with (p +:+ String c EmptyString +:+ h).
        now rewrite <- !append_assoc, Hh.
Qed.

Lemma fold_lines_trim s st :
  fold_left f (Str.split "010" (Str.trim s)) st = fold_left f (Str.split "010" s) st.
Proof.
  rewrite <- (fold_lines_trimStart s st). unfold Str.trim.
  destruct (fold_lines_trimEnd (Str.trimStart s)) as (h & t & h' & t' & -> & -> & Hh & Ht).
  simpl. rewrite Ht. f_equal. apply f_trim. apply (Hh EmptyString).
Qed.
End Lines.

(** ** The scan of the route and the scan of the page *)

Lemma scanLine_trim st l1 l2 : Str.trim l1 = Str.trim l2 -> scanLine st l1 = scanLine st l2.
Proof. intros E. unfold scanLine. now rewrite E. Qed.

(** The initial trim of the whole text is redundant: every line is trimmed
    again, and blank lines change nothing. *)
Lemma scanLines_untrimmed content :
  scanLines (Str.split "010" (Str.trim content)) = scanLines (Str.split "010" content).
Proof.
  unfold scanLines. apply fold_lines_trim; [exact scanLine_trim | reflexivity].
Qed.

Lemma pageScanLine_shown st line : pageScanLine (shown st) line = shown (scanLine st line).
Proof.
  unfold pageScanLine, scanLine.
  destruct (Str.isEmpty (Str.trim line)) eqn:E; [reflexivity|].
  destruct (mappingMatch (Str.trim line)) as [[g1 g2]|]; [reflexivity|].
  pose proof (tokens_nonempty (Str.trim line)
                (proj1 (isEmpty_false _) E) (trim_startsClean line) (trim_endsClean line)) as T.
  destruct (Str.splitWhiteSpace (Str.trim line)) as [|t0 [|t1 [|t2 [|t3 rest]]]];
    try reflexivity.
  simpl. destruct (parseInt t0) as [|v]; [reflexivity|].
  inversion T as [|? ? _ T1]; subst. inversion T1 as [|? ? N1 T2]; subst.
  inversion T2 as [|? ? _ T3]; subst. inversion T3 as [|? ? N3 _]; subst.
  apply isEmpty_false in N1, N3. now rewrite N1, N3.
Qed.

Lemma pageScan_shown ls st :
  fold_left pageScanLine ls (shown st) = shown (fold_left scanLine ls st).
Proof.
  revert st. induction ls as [|l ls IH]; intros st; simpl; [reflexivity|].
  now rewrite pageScanLine_shown, IH.
Qed.

(** The set of VLAN ids of the scan is the set of the ids of its records. *)
Lemma scan_vlans ls : forall st,
  (forall v, v ∈ seenVlans st <-> exists c, c ∈ seenClients st /\ vlan c = Int v) ->
  forall v, v ∈ seenVlans (fold_left scanLine ls st)
            <-> exists c, c ∈ seenClients (fold_left scanLine ls st) /\ vlan c = Int v.
Proof.
  induction ls as [|l ls IH]; intros st H; simpl; [exact H|].
  apply IH. rewrite scanLine_classify. intros v.
  destruct (classify l) as [|k n|c|]; simpl; try apply H.
  destruct (vlan c) as [|w] eqn:Vc.
  - rewrite H. split; intros (c' & Hc' & Hv).
    + exists c'. split; [apply elem_of_app; now left | exact Hv].
    + apply elem_of_app in Hc' as [Hc'|Hc']; [eauto|].
      apply list_elem_of_singleton in Hc'. subst. congruence.
  - rewrite elem_of_union, elem_of_singleton, H. split.
    + intros [->|(c' & Hc' & Hv)].
      * exists c. split; [apply elem_of_app; right; now apply list_elem_of_singleton | exact Vc].
      * exists c'. split; [apply elem_of_app; now left | exact Hv].
    + intros (c' & Hc' & Hv). apply elem_of_app in Hc' as [Hc'|Hc']; [eauto|].
      apply list_elem_of_singleton in Hc'. subst. left. congruence.
Qed.

(** Every key of the scan's mappings is the decimal text of a non-negative
    integer, and no segment name holds a line terminator. *)
Lemma scan_mappings ls : forall st,
  map_Forall (fun key name => (exists v, 0 <= v /\ key = Number_toString (Int v))
                              /\ Str.all Chr.isDot name = true) (seenMappings st) ->
  map_Forall (fun key name => (exists v, 0 <= v /\ key = Number_toString (Int v))
                              /\ Str.all Chr.isDot name = true)
             (seenMappings (fold_left scanLine ls st)).
Proof.
  induction ls as [|l ls IH]; intros st H; simpl; [exact H|].
  apply IH. unfold scanLine.
  destruct (Str.isEmpty (Str.trim l)); [exact H|].
  destruct (mappingMatch (Str.trim l)) as [[g1 g2]|] eqn:M.
  - simpl. apply map_Forall_insert_2; [|exact H].
    pose proof (mappingMatch_sound _ _ _ M) as (? & ? & ? & ? & _ & Hne & Hd & _ & _ & _ & _ & Hn & _).
    destruct (parseInt_digits g1 Hne Hd) as [-> V]. split; [eauto | exact Hn].
  - destruct (_ <? _)%nat; [exact H|]. destruct (parseInt _); [exact H|].
    destruct (_ && _); exact H.
Qed.

Lemma isDot_no_newline s : Str.all Chr.isDot s = true -> hasNewline s = false.
Proof.
  unfold hasNewline. induction s as [|c r IH]; simpl; [reflexivity|].
  intros A. apply andb_prop in A as [Ac Ar]. rewrite (IH Ar), orb_false_r.
  revert Ac. clear. each_char c.
Qed.


Lemma parse_mappings content :
  map_Forall (fun key name => (exists v, 0 <= v /\ key = Number_toString (Int v))
                              /\ Str.all Chr.isDot name = true)
             (detectedMappings (parseFileContent content)).
Proof.
  apply (scan_mappings (Str.split "010" (Str.trim content)) (Scan [] ∅ ∅)).
  apply map_Forall_empty.
Qed.

(** X1.  The VLAN list [parseFileContent] returns is in ascending order and
    has no duplicates, and its members are exactly the VLAN ids of the
    records. *)
Theorem X1_uniqueVlans_sorted (content : string) :
  let r := parseFileContent content in
  Sorted Z.le (uniqueVlans r)
  /\ NoDup (uniqueVlans r)
  /\ forall v, v ∈ uniqueVlans r <-> exists c, c ∈ clients r /\ vlan c = Int v.
Proof.
  cbv zeta. unfold parseFileContent, scanLines. cbn [uniqueVlans clients].
  split; [apply Sorted_merge_sort; apply _|]. split.
  - rewrite merge_sort_Permutation. apply NoDup_elements.
  - intros v. rewrite merge_sort_Permutation, elem_of_elements.
    apply scan_vlans. intros w. simpl. split.
    + intros H. now apply not_elem_of_empty in H.
    + intros (c & H & _). now apply not_elem_of_nil in H.
Qed.



(** X4.  Rendered with the mappings detected in the same text, the CSV has
    exactly one line for the header and one for each record, in the order of
    the records: neither a MAC token nor a detected name can bring in a
    newline. *)
Theorem X4_detected_csv_lines (content : string) :
  let r := parseFileContent content in
  csvLines (generateCsv (clients r) (detectedMappings r))
  = Str.join "," headers :: map (rowOf (detectedMappings r)) (clients r)
  /\ length (csvLines (generateCsv (clients r) (detectedMappings r)))
     = S (length (clients r)).
Proof.
  cbv zeta.
  assert (L : csvLines (generateCsv (clients (parseFileContent content))
                          (detectedMappings (parseFileContent content)))
              = Str.join "," headers
                :: map (rowOf (detectedMappings (parseFileContent content)))
                       (clients (parseFileContent content))).
  { apply csvLines_generateCsv, parse_newlineFree.
    intros key name H. apply isDot_no_newline.
    now destruct (parse_mappings content key name H). }
  split; [exact L|]. rewrite L. simpl. now rewrite length_map.
Qed.

(** X5.  The page and the route agree: the VLAN list and the detected
    mappings [processFile] shows for a text are those [parseFileContent]
    returns for it, although the page splits the text as read and the route
    trims it first. *)
Theorem X5_page_matches_route (content : string) :
  Page.vlans (processFile content) = uniqueVlans (parseFileContent content)
  /\ Page.detectedMappings (processFile content)
     = detectedMappings (parseFileContent content).
Proof.
  unfold processFile, parseFileContent. cbn [Page.vlans Page.detectedMappings
                                             uniqueVlans detectedMappings].
  rewrite scanLines_untrimmed. unfold scanLines.
  change (PageScan ∅ ∅) with (shown (Scan [] ∅ ∅)).
  rewrite pageScan_shown. split; reflexivity.
Qed.

(** ** The form the page starts from *)

Lemma isEmpty_true' s : Str.isEmpty s = true -> s = EmptyString.
Proof. now destruct s. Qed.

Lemma prefill_keeps m vs key name : forall acc,
  m !! key = Some name -> acc !! key = Some name ->
  fold_left (prefill m) vs acc !! key = Some name.
Proof.
  induction vs as [|v vs IH]; intros acc Hm Ha; simpl; [exact Ha|].
  apply IH; [exact Hm|]. unfold prefill.
  destruct (m !! Number_toString (Int v)) as [n|] eqn:E; [|exact Ha].
  destruct (Str.isEmpty n); [exact Ha|].
  destruct (decide (Number_toString (Int v) = key)) as [<-|Hne].
  - rewrite lookup_insert_eq. congruence.
  - now rewrite lookup_insert_ne.
Qed.

Lemma prefill_complete m vs v name : forall acc,
  v ∈ vs -> m !! Number_toString (Int v) = Some name -> name <> EmptyString ->
  fold_left (prefill m) vs acc !! Number_toString (Int v) = Some name.
Proof.
  induction vs as [|w vs IH]; intros acc Hv Hm Hn; [now apply not_elem_of_nil in Hv|].
  simpl. apply elem_of_cons in Hv as [<-|Hv]; [|now apply IH].
  apply prefill_keeps; [exact Hm|]. unfold prefill. rewrite Hm.
  apply isEmpty_false in Hn. rewrite Hn. apply lookup_insert_eq.
Qed.

Lemma prefill_sound m (ids : list Z) vs key name : forall acc,
  Forall (fun v => v ∈ ids) vs ->
  (forall k n, acc !! k = Some n ->
               n <> EmptyString /\ m !! k = Some n
               /\ exists v, v ∈ ids /\ k = Number_toString (Int v)) ->
  fold_left (prefill m) vs acc !! key = Some name ->
  name <> EmptyString /\ m !! key = Some name
  /\ exists v, v ∈ ids /\ key = Number_toString (Int v).
Proof.
  induction vs as [|w vs IH]; intros acc Hvs Ha; simpl; [apply Ha|].
  inversion Hvs as [|? ? Hw Hvs']; subst. apply IH; [exact Hvs'|].
  intros k n. unfold prefill.
  destruct (m !! Number_toString (Int w)) as [n'|] eqn:E; [|apply Ha].
  destruct (Str.isEmpty n') eqn:Z; [apply Ha|].
  destruct (decide (Number_toString (Int w) = k)) as [<-|Hne].
  - rewrite lookup_insert_eq. intros [= <-].
    split; [now apply isEmpty_false|]. split; [exact E | eauto].
  - rewrite lookup_insert_ne by exact Hne. apply Ha.
Qed.

(** X6.  The form starts with exactly the detected mappings of the VLAN ids
    that occur in binding lines and whose detected name is not empty: a
    declaration for a VLAN without bindings, or with an empty name, is left
    out of it. *)
Theorem X6_prefilled_form (content key name : string) :
  Page.vlanMappings (processFile content) !! key = Some name
  <-> name <> EmptyString
      /\ Page.detectedMappings (processFile content) !! key = Some name
      /\ exists v, v ∈ Page.vlans (processFile content) /\ key = Number_toString (Int v).
Proof.
  unfold processFile. cbn [Page.vlans Page.detectedMappings Page.vlanMappings]. split.
  - apply prefill_sound; [now apply Forall_forall|].
    intros k n H. now rewrite lookup_empty in H.
  - intros (Hn & Hm & v & Hv & ->). now apply prefill_complete.
Qed.

Lemma generateCsv_ext cs m1 m2 :
  (forall c, c ∈ cs -> segmentOf m1 (vlan c) = segmentOf m2 (vlan c)) ->
  generateCsv cs m1 = generateCsv cs m2.
Proof.
  intros H. unfold generateCsv. cbv zeta. do 2 f_equal.
  induction cs as [|c cs IH]; [reflexivity|]. simpl. f_equal.
  - unfold rowOf, rowFields. rewrite (H c); [reflexivity | now left].
  - apply IH. intros c' Hc'. apply H. now right.
Qed.

Lemma processFile_route content :
  processFile content
  = Page.State (uniqueVlans (parseFileContent content))
               (detectedMappings (parseFileContent content))
               (fold_left (prefill (detectedMappings (parseFileContent content)))
                          (uniqueVlans (parseFileContent content)) ∅).
Proof.
  unfold processFile, parseFileContent. cbn [uniqueVlans detectedMappings].
  rewrite scanLines_untrimmed. unfold scanLines.
  change (PageScan ∅ ∅) with (shown (Scan [] ∅ ∅)).
  now rewrite pageScan_shown.
Qed.

Lemma parse_vlans content c :
  c ∈ clients (parseFileContent content) ->
  exists v, vlan c = Int v /\ v ∈ uniqueVlans (parseFileContent content).
Proof.
  intros Hc. pose proof Hc as Hb. rewrite parse_clients in Hb.
  apply list_elem_of_omap in Hb as (line & _ & Hb).
  apply bindingOf_tokens in Hb as (_ & t0 & v & _ & _ & _ & Hv).
  exists v. split; [exact Hv|].
  unfold parseFileContent, scanLines in *. cbn [uniqueVlans clients] in *.
  rewrite merge_sort_Permutation, elem_of_elements.
  apply scan_vlans; [|eauto]. intros w. simpl. split.
  - intros H. now apply not_elem_of_empty in H.
  - intros (c' & H & _). now apply not_elem_of_nil in H.
Qed.

(** The prefilled form renders every record as the detected mappings do. *)
Lemma prefilled_csv content :
  generateCsv (clients (parseFileContent content))
    (finalMappings (Page.vlanMappings (processFile content))
                   (detectedMappings (parseFileContent content)))
  = generateCsv (clients (parseFileContent content))
                (detectedMappings (parseFileContent content)).
Proof.
  rewrite processFile_route. cbn [Page.vlanMappings].
  set (r := parseFileContent content).
  set (pre := fold_left (prefill (detectedMappings r)) (uniqueVlans r) ∅).
  unfold finalMappings. destruct (0 <? size pre)%nat; [|reflexivity].
  apply generateCsv_ext. intros c Hc.
  destruct (parse_vlans content c Hc) as (v & Hv & Hin). fold r in Hin.
  rewrite Hv. unfold segmentOf.
  destruct (detectedMappings r !! Number_toString (Int v)) as [n|] eqn:D.
  - destruct (Str.isEmpty n) eqn:Z.
    + apply isEmpty_true' in Z. subst n.
      destruct (pre !! Number_toString (Int v)) as [n'|] eqn:P; [|reflexivity].
      apply (prefill_sound _ (uniqueVlans r)) in P as (Hn & Hm & _);
        [congruence | now apply Forall_forall |].
      intros k n H. now rewrite lookup_empty in H.
    + unfold pre. rewrite (prefill_complete _ _ v n); [reflexivity | exact Hin | exact D |].
      now apply isEmpty_false.
  - destruct (pre !! Number_toString (Int v)) as [n'|] eqn:P; [|reflexivity].
    apply (prefill_sound _ (uniqueVlans r)) in P as (_ & Hm & _);
      [congruence | now apply Forall_forall |].
    intros k n H. now rewrite lookup_empty in H.
Qed.

(** ** From the page to the route and back *)

Lemma POST_text text (supplied : gmap string string) :
  Str.isEmpty text = false ->
  POST (Body (Some (Base64.btoa text)) (Some supplied))
  = if (length (clients (parseFileContent text)) =? 0)%nat then
      ErrorResponse "No valid MAC address entries found in the file" 400
    else
      CsvResponse
        (Base64.btoa (generateCsv (clients (parseFileContent text))
                        (finalMappings supplied (detectedMappings (parseFileContent text)))))
        (detectedMappings (parseFileContent text)).
Proof.
  intros E. now rewrite (POST_decoded _ text _ (btoa_nonempty _ E) (atob_btoa text)).
Qed.

Lemma handleProcessFile_text text (supplied : gmap string string) :
  Str.isEmpty text = false ->
  handleProcessFile (Some text) supplied
  = if (length (clients (parseFileContent text)) =? 0)%nat then Alert "API error: 400"
    else Results (generateCsv (clients (parseFileContent text))
                    (finalMappings supplied (detectedMappings (parseFileContent text))))
                 (detectedMappings (parseFileContent text)).
Proof.
  intros E. unfold handleProcessFile. rewrite E, (POST_text _ _ E).
  destruct (length _ =? 0)%nat; [reflexivity|]. now rewrite atob_btoa.
Qed.

(** X7.  Sending the form as the page prefilled it gives the same outcome as
    sending no mappings at all: the prefilled entries are detected ones, and
    the entries it leaves out render as the empty segment either way. *)
Theorem X7_unedited_form (content : string) :
  handleProcessFile (Some content) (Page.vlanMappings (processFile content))
  = handleProcessFile (Some content) ∅
  /\ generateCsv (clients (parseFileContent content))
       (finalMappings (Page.vlanMappings (processFile content))
                      (detectedMappings (parseFileContent content)))
     = generateCsv (clients (parseFileContent content))
                   (detectedMappings (parseFileContent content)).
Proof.
  split; [|apply prefilled_csv].
  destruct (Str.isEmpty content) eqn:E.
  - unfold handleProcessFile. now rewrite E.
  - rewrite !(handleProcessFile_text _ _ E), prefilled_csv.
    now rewrite finalMappings_empty.
Qed.

Lemma Number_toString_inj_any n1 n2 :
  Number_toString n1 = Number_toString n2 -> n1 = n2.
Proof.
  destruct n1 as [|z1], n2 as [|z2]; intros E; [reflexivity | | |].
  - pose proof (parseInt_toString z2) as P. rewrite <- E in P. discriminate P.
  - pose proof (parseInt_toString z1) as P. rewrite E in P. discriminate P.
  - f_equal. now apply Number_toString_inj.
Qed.

(** X8.  An edit of the form for one VLAN sets the segment of the records of
    that VLAN to the text typed, and leaves the row of every other record as
    it was. *)
Theorem X8_edit_one_vlan (prev : gmap string string) (v : Z) (segmentName : string)
    (c : client) :
  (vlan c = Int v ->
   rowFields (handleVlanMappingChange prev v segmentName) c !! 1%nat = Some segmentName)
  /\ (vlan c <> Int v ->
      rowOf (handleVlanMappingChange prev v segmentName) c = rowOf prev c).
Proof.
  unfold handleVlanMappingChange, rowOf, rowFields, segmentOf. split.
  - intros ->. simpl. now rewrite lookup_insert_eq.
  - intros H. rewrite lookup_insert_ne; [reflexivity|].
    intros E. apply H. symmetry. now apply Number_toString_inj_any.
Qed.

(** X8 at the records of VLAN 5 and VLAN 1 when VLAN 5 is edited. *)
Lemma X8_edit_one_vlan_witness :
  rowFields (handleVlanMappingChange {[ "1" := "Corp" ]} 5 "Guest")
            (Client (Int 5) "000a.f70e.af2f" "Gi1/0/11") !! 1%nat = Some "Guest"
  /\ rowOf (handleVlanMappingChange {[ "1" := "Corp" ]} 5 "Guest")
           (Client (Int 1) "001e.0b41.7afd" "Gi1/0/15")
     = rowOf {[ "1" := "Corp" ]} (Client (Int 1) "001e.0b41.7afd" "Gi1/0/15").
Proof.
  split.
  - apply (proj1 (X8_edit_one_vlan {[ "1" := "Corp" ]} 5 "Guest"
                    (Client (Int 5) "000a.f70e.af2f" "Gi1/0/11"))). reflexivity.
  - apply (proj2 (X8_edit_one_vlan {[ "1" := "Corp" ]} 5 "Guest"
                    (Client (Int 1) "001e.0b41.7afd" "Gi1/0/15"))). simpl. congruence.
Defined.

(** X10.  When the page ends with results, the file text was not empty and
    held at least one record; the detected mappings shown are those of the
    text; and the CSV shown is the one rendered from the records of the text
    with the form's mappings when the form has an entry and with the
    detected ones when it has none, header line first: nothing is lost on
    the way to the route and back. *)
Theorem X10_page_outcome (fileContent : option string) (supplied : gmap string string)
    (csv : string) (det : gmap string string) :
  handleProcessFile fileContent supplied = Results csv det ->
  exists text : string,
    fileContent = Some text
    /\ Str.isEmpty text = false
    /\ clients (parseFileContent text) <> []
    /\ det = detectedMappings (parseFileContent text)
    /\ csv = generateCsv (clients (parseFileContent text)) (finalMappings supplied det)
    /\ head (csvLines csv) = Some (Str.join "," headers).
Proof.
  unfold handleProcessFile. destruct fileContent as [text|]; [|discriminate].
  destruct (Str.isEmpty text) eqn:E; [discriminate|]. cbv zeta.
  destruct (POST _) as [|csv64 det'] eqn:P; [discriminate|].
  destruct (POST_success _ _ _ P) as (content64 & decoded & sup & F & A & V & N & D & C).
  cbn [fileContent vlanMappings] in F, V. injection F as <-. injection V as <-.
  rewrite atob_btoa in A. injection A as <-.
  rewrite C, atob_btoa. intros [= <- <-].
  exists text. split; [reflexivity|]. split; [exact E|]. split; [exact N|].
  split; [exact D|]. split; [reflexivity | apply csvLines_head].
Qed.

(** X10 at a text of one declaration and one binding line. *)
Lemma X10_page_outcome_witness :
  exists text : string,
    Some ("5 = 'Guest'" +:+ String "010" "5 000a.f70e.af2f DYNAMIC Gi1/0/11") = Some text
    /\ Str.isEmpty text = false
    /\ clients (parseFileContent text) <> []
    /\ ({[ "5" := "Guest" ]} : gmap string string) = detectedMappings (parseFileContent text)
    /\ Str.join (String "010" EmptyString)
         [Str.join "," headers; "00:0a:f7:0e:af:2f,Guest,,,,,Allow,,No,,No"]
       = generateCsv (clients (parseFileContent text)) (finalMappings ∅ {[ "5" := "Guest" ]})
    /\ head (csvLines (Str.join (String "010" EmptyString)
                         [Str.join "," headers; "00:0a:f7:0e:af:2f,Guest,,,,,Allow,,No,,No"]))
       = Some (Str.join "," headers).
Proof.
  apply (X10_page_outcome
           (Some ("5 = 'Guest'" +:+ String "010" "5 000a.f70e.af2f DYNAMIC Gi1/0/11")) ∅).
  vm_compute. reflexivity.
Defined.

(** ** The preview *)

(** Joining undoes splitting, for every text. *)
Lemma join_split sep s : Str.join (String sep EmptyString) (Str.split sep s) = s.
Proof.
  induction s as [|c r IH]; [reflexivity|].
  rewrite split_step. destruct (split_cons sep r) as (h & t & E). rewrite E in *.
  destruct (Str.isChar sep c) eqn:C.
  - apply isChar_eq in C. subst c. rewrite join_cons, IH. reflexivity.
  - rewrite join_cons in *. destruct t; [now rewrite IH|].
    rewrite <- IH. reflexivity.
Qed.

(** X11.  The preview of a CSV of at most ten lines is the CSV itself.  For
    the CSV of records whose fields hold no newline, that is the case up to
    nine records; with more, the preview is the CSV of the first nine
    records followed by a line of three dots. *)
Theorem X11_preview (cs : list client) (m : gmap string string) :
  (forall csv, (length (csvLines csv) <= 10)%nat -> preview csv = csv)
  /\ (Forall (fun c => newlineFree m c = true) cs ->
      ((length cs <= 9)%nat -> preview (generateCsv cs m) = generateCsv cs m)
      /\ ((9 < length cs)%nat ->
          preview (generateCsv cs m)
          = generateCsv (take 9 cs) m +:+ String "010" "...")).
Proof.
  assert (G : forall csv, (length (csvLines csv) <= 10)%nat -> preview csv = csv).
  { intros csv L. unfold preview, csvLines in *.
    rewrite take_ge by exact L. rewrite join_split.
    destruct (10 <? _)%nat eqn:B; [apply Nat.ltb_lt in B; lia|].
    apply append_empty_r. }
  split; [exact G|]. intros F.
  pose proof (csvLines_generateCsv cs m F) as L. split.
  - intros H. apply G. rewrite L. simpl. rewrite length_map. lia.
  - intros H. unfold preview. fold (csvLines (generateCsv cs m)). rewrite L.
    simpl length. rewrite length_map.
    destruct (10 <? S (length cs))%nat eqn:B; [|apply Nat.ltb_ge in B; lia].
    f_equal. change (take 10 (Str.join "," headers :: map (rowOf m) cs))
      with (Str.join "," headers :: take 9 (map (rowOf m) cs)).
    now rewrite <- fmap_take.
Qed.

(** X11 at one record and at ten records. *)
Lemma X11_preview_witness :
  preview (generateCsv [Client (Int 1) "001e.0b41.7afd" "Gi1/0/15"] ∅)
  = generateCsv [Client (Int 1) "001e.0b41.7afd" "Gi1/0/15"] ∅
  /\ preview (generateCsv (replicate 10 (Client (Int 1) "001e.0b41.7afd" "Gi1/0/15")) ∅)
     = generateCsv (take 9 (replicate 10 (Client (Int 1) "001e.0b41.7afd" "Gi1/0/15"))) ∅
       +:+ String "010" "...".
Proof.
  split.
  - refine (proj1 (proj2 (X11_preview [Client (Int 1) "001e.0b41.7afd" "Gi1/0/15"] ∅) _) _).
    + repeat constructor.
    + simpl. lia.
  - refine (proj2 (proj2 (X11_preview
                            (replicate 10 (Client (Int 1) "001e.0b41.7afd" "Gi1/0/15")) ∅)
                         _) _).
    + repeat constructor.
    + simpl. lia.
Defined.

(** ** Formatting twice *)

Lemma toLower_idem c : Chr.toLower (Chr.toLower c) = Chr.toLower c.
Proof. each_char c. Qed.

Lemma toLower_separator c : Chr.isSeparator (Chr.toLower c) = Chr.isSeparator c.
Proof. each_char c. Qed.

Lemma toLower_isDot c : Chr.isDot (Chr.toLower c) = Chr.isDot c.
Proof. each_char c. Qed.

Lemma clean_cons c s :
  Str.removeSeparators (Str.toLowerCase (String c s))
  = if Chr.isSeparator c then Str.removeSeparators (Str.toLowerCase s)
    else String (Chr.toLower c) (Str.removeSeparators (Str.toLowerCase s)).
Proof.
  unfold Str.removeSeparators. cbn [Str.toLowerCase Str.keep].
  rewrite toLower_separator. now destruct (Chr.isSeparator c).
Qed.

Lemma clean_idem s :
  Str.removeSeparators (Str.toLowerCase (Str.removeSeparators (Str.toLowerCase s)))
  = Str.removeSeparators (Str.toLowerCase s).
Proof.
  induction s as [|c r IH]; [reflexivity|].
  rewrite (clean_cons c r). destruct (Chr.isSeparator c) eqn:S; [exact IH|].
  rewrite clean_cons, toLower_separator, S, toLower_idem. now rewrite IH.
Qed.

Lemma clean_isDot s :
  Str.all Chr.isDot s = true ->
  Str.all Chr.isDot (Str.removeSeparators (Str.toLowerCase s)) = true.
Proof.
  induction s as [|c r IH]; [reflexivity|]. intros A.
  simpl in A. apply andb_prop in A as [Ac Ar]. rewrite clean_cons.
  destruct (Chr.isSeparator c); [now apply IH|].
  simpl. now rewrite toLower_isDot, Ac, IH.
Qed.

Lemma clean_octets s :
  Str.removeSeparators (Str.toLowerCase (Str.join ":" (octets s)))
  = Str.removeSeparators (Str.toLowerCase s).
Proof.
  enough (H : Str.removeSeparators (Str.toLowerCase (Str.join ":" (octets s)))
              = Str.removeSeparators (Str.toLowerCase s)
              /\ forall c, Str.removeSeparators
                             (Str.toLowerCase (Str.join ":" (octets (String c s))))
                           = Str.removeSeparators (Str.toLowerCase (String c s)))
    by apply H.
  induction s as [|d r [IH1 IH2]].
  - split; [reflexivity|]. intros c. reflexivity.
  - split; [apply IH2|]. intros c.
    change (octets (String c (String d r)))
      with (String c (String d EmptyString) :: octets r).
    rewrite join_cons. destruct (octets r) as [|o os] eqn:O.
    + destruct r as [|? [|? ?]]; [reflexivity | discriminate..].
    + rewrite <- O in IH1 |- *.
      change (String c (String d EmptyString) +:+ ":" +:+ Str.join ":" (octets r))
        with (String c (String d (String ":" (Str.join ":" (octets r))))).
      rewrite !clean_cons. change (Chr.isSeparator ":") with true. cbv iota.
      now rewrite IH1.
Qed.

(** X12.  Formatting a formatted MAC address changes nothing, for every
    address without a line terminator (as every token of a line is). *)
Theorem X12_formatMacAddress_idempotent (m : string) :
  Str.all Chr.isDot m = true ->
  formatMacAddress (formatMacAddress m) = formatMacAddress m.
Proof.
  intros D.
  destruct (Nat.eq_dec (String.length (Str.removeSeparators (Str.toLowerCase m))) 12%nat)
    as [L|L].
  - pose proof (clean_isDot m D) as Dc.
    rewrite (formatMacAddress_twelve m L Dc).
    rewrite formatMacAddress_twelve; rewrite clean_octets, clean_idem;
      solve [reflexivity | assumption].
  - rewrite (formatMacAddress_other m L).
    rewrite formatMacAddress_other; rewrite clean_idem; solve [reflexivity | assumption].
Qed.

(** X12 at a Cisco-style address. *)
Lemma X12_formatMacAddress_idempotent_witness :
  formatMacAddress (formatMacAddress "001E.0B41.7AFD") = formatMacAddress "001E.0B41.7AFD".
Proof. apply X12_formatMacAddress_idempotent. reflexivity. Defined.

(** ** Where a detected mapping comes from *)

(** The last element with a property, in a list that grows at its end. *)
Lemma last_with_snoc {A} (P Q : A -> Prop) (ls : list A) (x : A) :
  (exists ls1 l ls2, ls ++ [x] = ls1 ++ l :: ls2 /\ P l /\ Forall Q ls2)
  <-> P x \/ (Q x /\ exists ls1 l ls2, ls = ls1 ++ l :: ls2 /\ P l /\ Forall Q ls2).
Proof.
  split.
  - intros (ls1 & l & ls2 & E & Pl & F).
    destruct ls2 as [|y ls2 _] using rev_ind.
    + apply app_inj_tail in E as [_ ->]. now left.
    + change (ls1 ++ l :: ls2 ++ [y]) with (ls1 ++ (l :: ls2) ++ [y]) in E.
      rewrite app_assoc in E. apply app_inj_tail in E as [-> ->].
      apply Forall_app in F as [F Fy]. right. split; [now inversion Fy|].
      now exists ls1, l, ls2.
  - intros [Px | (Qx & ls1 & l & ls2 & -> & Pl & F)].
    + exists ls, x, []. auto.
    + exists ls1, l, (ls2 ++ [x]). split; [now rewrite <- app_assoc|].
      split; [exact Pl|]. apply Forall_app. auto.
Qed.

Lemma record_mappings st l key :
  seenMappings (scanLine st l) !! key
  = match declarationOf l with
    | Some (k, n) => if decide (k = key) then Some n else seenMappings st !! key
    | None => seenMappings st !! key
    end.
Proof.
  rewrite scanLine_classify. unfold declarationOf.
  destruct (classify l) as [|k n|c|]; try reflexivity.
  simpl. destruct (decide (k = key)) as [->|N].
  - apply lookup_insert_eq.
  - now apply lookup_insert_ne.
Qed.

Lemma scan_last_declaration ls key name :
  seenMappings (scanLines ls) !! key = Some name
  <-> exists ls1 l ls2,
        ls = ls1 ++ l :: ls2 /\ declarationOf l = Some (key, name)
        /\ Forall (fun l' => forall n', declarationOf l' <> Some (key, n')) ls2.
Proof.
  induction ls as [|x ls IH] using rev_ind.
  - split; [discriminate|]. intros (ls1 & l & ls2 & E & _). now destruct ls1.
  - rewrite (last_with_snoc (fun l => declarationOf l = Some (key, name))
                            (fun l' => forall n', declarationOf l' <> Some (key, n'))).
    rewrite <- IH. unfold scanLines. rewrite fold_left_app. simpl.
    rewrite record_mappings. fold (scanLines ls).
    destruct (declarationOf x) as [[k n]|].
    + destruct (decide (k = key)) as [->|N].
      * split; [intros [= ->]; now left|].
        intros [[= ->] | [Q _]]; [reflexivity | now destruct (Q n)].
      * split; [intros H; right; split; [congruence | exact H]|].
        intros [[= -> _] | [_ H]]; [now destruct N | exact H].
    + split; [intros H; right; split; [discriminate | exact H]|].
      intros [? | [_ H]]; [discriminate | exact H].
Qed.

(** X13.  A detected mapping is the last declaration of its key among the
    lines of the content: the file maps [key] to [name] exactly when some
    line declares [key] as [name] and no later line declares [key]. *)
Theorem X13_last_declaration (content key name : string) :
  detectedMappings (parseFileContent content) !! key = Some name
  <-> exists ls1 l ls2,
        Str.split "010" content = ls1 ++ l :: ls2
        /\ declarationOf l = Some (key, name)
        /\ Forall (fun l' => forall n', declarationOf l' <> Some (key, n')) ls2.
Proof.
  rewrite <- scan_last_declaration. unfold parseFileContent. cbv zeta.
  cbn [detectedMappings]. now rewrite scanLines_untrimmed.
Qed.

(** X3.  Every detected mapping is read off a declaration line of the
    content: its key is the one the line declares, and its name is the
    captured one, which holds no line terminator.  When the digits the line
    starts with are at most fifteen, the key is the decimal text of the
    integer they denote, which is not negative, and the key reads back as
    that integer. *)
Theorem X3_detected_mappings (content key name : string) :
  detectedMappings (parseFileContent content) !! key = Some name ->
  (exists line digits : string,
      line ∈ Str.split "010" content
      /\ mappingMatch (Str.trim line) = Some (digits, name)
      /\ digits <> EmptyString
      /\ Str.all Chr.isDigit digits = true
      /\ declarationOf line = Some (key, name)
      /\ ((String.length digits <= 15)%nat ->
          exists v, 0 <= v < 10 ^ 15
            /\ v = digitsValue 0 digits
            /\ key = Number_toString (Int v)
            /\ parseInt key = Int v))
  /\ Str.all Chr.isDot name = true
  /\ hasNewline name = false.
Proof.
  unfold parseFileContent. cbv zeta. cbn [detectedMappings].
  rewrite scanLines_untrimmed. intros H.
  apply scan_last_declaration in H as (ls1 & l & ls2 & E & D & _).
  pose proof D as D0. unfold declarationOf in D. rewrite classify_explicit in D.
  destruct (Str.isEmpty (Str.trim l)); [discriminate|].
  destruct (mappingMatch (Str.trim l)) as [[digits n]|] eqn:M;
    [|destruct (_ && _); discriminate].
  injection D as <- <-.
  destruct (mappingMatch_digits _ _ _ M) as [Hne Hd].
  destruct (parseInt_digits digits Hne Hd) as [P _].
  assert (Dot : Str.all Chr.isDot n = true).
  { apply mappingMatch_sound in M as (? & ? & ? & ? & _ & _ & _ & _ & _ & _ & _ & Dn & _).
    exact Dn. }
  split; [|split; [exact Dot | now apply isDot_no_newline]].
  exists l, digits. split; [rewrite E; apply elem_of_app; right; constructor|].
  split; [exact M|]. split; [exact Hne|]. split; [exact Hd|].
  split; [exact D0|]. intros L. exists (digitsValue 0 digits).
  split; [now apply digitsValue_fifteen|]. split; [reflexivity|].
  rewrite P. split; [reflexivity | apply parseInt_toString].
Qed.

(** X3 at a declaration written with leading zeros. *)
Lemma X3_detected_mappings_witness :
  (exists line digits : string,
      line ∈ Str.split "010" "007 = 'Printers'"
      /\ mappingMatch (Str.trim line) = Some (digits, "Printers")
      /\ digits <> EmptyString
      /\ Str.all Chr.isDigit digits = true
      /\ declarationOf line = Some ("7", "Printers")
      /\ ((String.length digits <= 15)%nat ->
          exists v, 0 <= v < 10 ^ 15
            /\ v = digitsValue 0 digits
            /\ "7" = Number_toString (Int v)
            /\ parseInt "7" = Int v))
  /\ Str.all Chr.isDot "Printers" = true
  /\ hasNewline "Printers" = false.
Proof.
  apply (X3_detected_mappings "007 = 'Printers'" "7" "Printers"). reflexivity.
Defined.

(** ** Two files in one *)

Lemma split_app sep a b :
  Str.split sep (a +:+ String sep b) = Str.split sep a ++ Str.split sep b.
Proof.
  induction a as [|c r IH].
  - change (EmptyString +:+ String sep b) with (String sep b).
    rewrite split_step. now rewrite (proj2 (isChar_eq sep sep) eq_refl).
  - change (String c r +:+ String sep b) with (String c (r +:+ String sep b)).
    rewrite !split_step, IH. destruct (Str.isChar sep c); [reflexivity|].
    now destruct (split_cons sep r) as (h & t & ->).
Qed.

Lemma scan_mappings_union ls st :
  seenMappings (fold_left scanLine ls st)
  = seenMappings (scanLines ls) ∪ seenMappings st.
Proof.
  induction ls as [|x ls IH] using rev_ind.
  - simpl. now rewrite (left_id_L ∅ (∪)).
  - unfold scanLines. rewrite !fold_left_app. simpl. rewrite !scanLine_classify.
    fold (scanLines ls).
    destruct (classify x) as [|k n|c|]; simpl; try exact IH.
    rewrite IH. apply insert_union_l.
Qed.

Lemma scan_vlans_union ls st :
  seenVlans (fold_left scanLine ls st) = seenVlans (scanLines ls) ∪ seenVlans st.
Proof.
  induction ls as [|x ls IH] using rev_ind.
  - simpl. now rewrite (left_id_L ∅ (∪)).
  - unfold scanLines. rewrite !fold_left_app. simpl. rewrite !scanLine_classify.
    fold (scanLines ls).
    destruct (classify x) as [|k n|c|]; simpl; try exact IH.
    destruct (vlan c); [exact IH|]. rewrite IH. now rewrite (assoc_L (∪)).
Qed.

Lemma elem_of_uniqueVlans content v :
  v ∈ uniqueVlans (parseFileContent content)
  <-> v ∈ seenVlans (scanLines (Str.split "010" content)).
Proof.
  unfold parseFileContent. cbv zeta. cbn [uniqueVlans].
  rewrite scanLines_untrimmed, merge_sort_Permutation. apply elem_of_elements.
Qed.

(** X14.  Reading two files joined by a newline gives the records of the
    first followed by those of the second, the mappings of both with the
    second file winning on a shared key, and the VLAN ids of both. *)
Theorem X14_concatenation (a b : string) :
  let r := parseFileContent (a +:+ String "010" b) in
  clients r = clients (parseFileContent a) ++ clients (parseFileContent b)
  /\ detectedMappings r
     = detectedMappings (parseFileContent b) ∪ detectedMappings (parseFileContent a)
  /\ forall v, v ∈ uniqueVlans r
               <-> v ∈ uniqueVlans (parseFileContent a)
                   \/ v ∈ uniqueVlans (parseFileContent b).
Proof.
  cbv zeta. split; [|split].
  - unfold parseFileContent. cbv zeta. cbn [clients].
    rewrite !scanLines_untrimmed, split_app. unfold scanLines.
    rewrite !scan_clients. simpl. now rewrite omap_app.
  - unfold parseFileContent. cbv zeta. cbn [detectedMappings].
    rewrite !scanLines_untrimmed, split_app. unfold scanLines at 1.
    rewrite fold_left_app. apply scan_mappings_union.
  - intros v. rewrite !elem_of_uniqueVlans, split_app. unfold scanLines at 1.
    rewrite fold_left_app, scan_vlans_union, elem_of_union. tauto.
Qed.

(** ** What a successful reply holds *)

Lemma split_length_append sep x y :
  (length (Str.split sep (x +:+ y)) + 1
   = length (Str.split sep x) + length (Str.split sep y))%nat.
Proof.
  induction x as [|c r IH].
  - simpl. lia.
  - change (String c r +:+ y) with (String c (r +:+ y)). rewrite !split_step.
    destruct (Str.isChar sep c); [simpl; lia|].
    destruct (split_cons sep (r +:+ y)) as (h & t & E).
    destruct (split_cons sep r) as (h' & t' & E').
    rewrite E, E' in *. simpl in *. lia.
Qed.

Lemma split_length_join sep l :
  l <> [] ->
  (length l <= length (Str.split sep (Str.join (String sep EmptyString) l)))%nat.
Proof.
  induction l as [|x l IH]; [congruence|]. intros _.
  rewrite join_cons. destruct l as [|y l].
  - destruct (split_cons sep x) as (h & t & ->). simpl. lia.
  - pose proof (split_length_append sep x
                  (String sep EmptyString +:+ Str.join (String sep EmptyString) (y :: l)))
      as H.
    change (String sep EmptyString +:+ Str.join (String sep EmptyString) (y :: l))
      with (String sep (Str.join (String sep EmptyString) (y :: l))) in *.
    rewrite split_step, (proj2 (isChar_eq sep sep) eq_refl) in H.
    destruct (split_cons sep x) as (h & t & E). rewrite E in H.
    specialize (IH ltac:(discriminate)). simpl length in *. lia.
Qed.

(** X15.  A successful reply is given only to a request whose content
    decodes to a text with at least one record and whose mappings are
    present; the mappings it returns are those detected in that text, and
    its CSV decodes to a text that starts with the header line and has more
    lines than there are records. *)
Theorem X15_success_reply (b : body) (csv64 : string) (det : gmap string string) :
  POST b = CsvResponse csv64 det ->
  exists content64 text supplied csv,
    fileContent b = Some content64
    /\ Base64.atob content64 = Some text
    /\ vlanMappings b = Some supplied
    /\ clients (parseFileContent text) <> []
    /\ det = detectedMappings (parseFileContent text)
    /\ Base64.atob csv64 = Some csv
    /\ csv = generateCsv (clients (parseFileContent text))
                         (finalMappings supplied det)
    /\ head (csvLines csv) = Some (Str.join "," headers)
    /\ (length (clients (parseFileContent text)) < length (csvLines csv))%nat.
Proof.
  unfold POST. destruct b as [[content64|] supplied]; cbn [fileContent vlanMappings];
    [|discriminate].
  destruct (Str.isEmpty content64); [discriminate|].
  destruct (Base64.atob content64) as [text|] eqn:A; [|discriminate].
  destruct (length (clients (parseFileContent text)) =? 0)%nat eqn:L; [discriminate|].
  destruct supplied as [supplied|]; [|discriminate].
  intros [= <- <-]. apply Nat.eqb_neq in L.
  exists content64, text, supplied,
    (generateCsv (clients (parseFileContent text))
                 (finalMappings supplied (detectedMappings (parseFileContent text)))).
  split; [reflexivity|]. split; [exact A|]. split; [reflexivity|].
  split; [intros E; now rewrite E in L|]. split; [reflexivity|].
  split; [apply atob_btoa|]. split; [reflexivity|]. split; [apply csvLines_head|].
  unfold csvLines, generateCsv.
  eapply Nat.lt_le_trans; [|apply split_length_join; discriminate].
  simpl. rewrite length_map. lia.
Qed.

(** X15 at a file of one binding line. *)
Lemma X15_success_reply_witness :
  exists content64 text supplied csv,
    fileContent (Body (Some (Base64.btoa "1 001e.0b41.7afd DYNAMIC Gi1/0/15")) (Some ∅))
    = Some content64
    /\ Base64.atob content64 = Some text
    /\ vlanMappings (Body (Some (Base64.btoa "1 001e.0b41.7afd DYNAMIC Gi1/0/15")) (Some ∅))
       = Some supplied
    /\ clients (parseFileContent text) <> []
    /\ ∅ = detectedMappings (parseFileContent text)
    /\ Base64.atob
         (Base64.btoa (Str.join (String "010" EmptyString)
                         [Str.join "," headers; "00:1e:0b:41:7a:fd,,,,,,Allow,,No,,No"]))
       = Some csv
    /\ csv = generateCsv (clients (parseFileContent text)) (finalMappings supplied ∅)
    /\ head (csvLines csv) = Some (Str.join "," headers)
    /\ (length (clients (parseFileContent text)) < length (csvLines csv))%nat.
Proof.
  apply (X15_success_reply
           (Body (Some (Base64.btoa "1 001e.0b41.7afd DYNAMIC Gi1/0/15")) (Some ∅))).
  vm_compute. reflexivity.
Defined.
